(** * HR employee management: payroll rules, registry and CSV persistence

    A shallow embedding of [HR_Employee_Management.py] and the properties of
    its salary rules, its registry and its CSV persistence.

    - Python values are an inductive type [value]; an [int] is a [Z], a
      [float] is an IEEE binary64 number (the [spec_float] model of the
      standard library at precision 53), with Python's own rules for mixed
      arithmetic, comparison, [round], [str], [int()] and [float()].
    - A raised exception is the [Raise] case of a [result]; a method that
      assigns to its object before it may raise returns the object as well.
    - A [dict] is an insertion-ordered association list; the rows of a saved
      file come in the order of the registry.
    - An object is its class and its [data] dictionary.  Objects are values:
      the operations studied here never reach one object under two names.
    - The storage file is seen through the [csv] module, as records of
      cells; quoting is lossless, and reading translates newlines.
    - Text is ASCII.  Limits of the machine are outside the model: memory,
      the field size limit of [csv], the digit limit of [int()]. *)

From Stdlib Require Import ZArith List String Ascii Bool Lia.
From Stdlib Require Import Floats.SpecFloat.
Import ListNotations.

Local Open Scope string_scope.
Local Open Scope Z_scope.

(** ** Exceptions and results *)

(** The exceptions the program can meet.  All of them derive from Python's
    [Exception], so an [except Exception] clause catches each one. *)
Inductive exn : Type :=
| TypeError
| ValueError
| KeyError
| AttributeError
| OverflowError
| NotImplementedError
| OSError
| UnicodeDecodeError
| CsvError.

Inductive result (A : Type) : Type :=
| Ok (a : A)
| Raise (e : exn).

Arguments Ok {A} a.
Arguments Raise {A} e.

Definition bind {A B : Type} (r : result A) (k : A -> result B) : result B :=
  match r with
  | Ok a => k a
  | Raise e => Raise e
  end.

Notation "x <- r ;; k" := (bind r (fun x => k))
  (at level 61, r at next level, right associativity).

(** ** Binary64 floating point *)

Module F64.

Definition float : Type := spec_float.

Definition prec : Z := 53.
Definition emax : Z := 1024.

Definition mul : float -> float -> float := SFmul prec emax.
Definition add : float -> float -> float := SFadd prec emax.
Definition compare : float -> float -> option comparison := SFcompare.
Definition ltb : float -> float -> bool := SFltb.
Definition leb : float -> float -> bool := SFleb.

(** The binary64 number nearest to [n / d] (ties to even), with sign [s];
    an infinity when the quotient is beyond the largest finite number. *)
Definition of_ratio (s : bool) (n d : positive) : float :=
  let '(q, e, l) := SFdiv_core_binary prec emax (Zpos n) 0 (Zpos d) 0 in
  binary_round_aux prec emax s q e l.

(** The binary64 number nearest to [m * 10 ^ e]. *)
Definition of_decimal (s : bool) (m : Z) (e : Z) : float :=
  match m with
  | Zpos p =>
      if 0 <=? e then of_ratio s (p * Z.to_pos (10 ^ e)) 1
      else of_ratio s p (Z.to_pos (10 ^ (- e)))
  | _ => S754_zero s
  end.

(** Correctly rounded conversion of an integer. *)
Definition of_Z (z : Z) : float :=
  match z with
  | Z0 => S754_zero false
  | Zpos p => of_ratio false p 1
  | Zneg p => of_ratio true p 1
  end.

Definition is_nan (x : float) : bool :=
  match x with S754_nan => true | _ => false end.

Definition is_zero (x : float) : bool :=
  match x with S754_zero _ => true | _ => false end.

(** Structural equality: same sign, mantissa and exponent. *)
Definition same (x y : float) : bool :=
  match x, y with
  | S754_zero s, S754_zero t => Bool.eqb s t
  | S754_infinity s, S754_infinity t => Bool.eqb s t
  | S754_nan, S754_nan => true
  | S754_finite s m e, S754_finite t n f =>
      Bool.eqb s t && Pos.eqb m n && Z.eqb e f
  | _, _ => false
  end.

(** Exact comparison of a float with an integer, as Python compares an
    [int] with a [float]; [None] when the float is a NaN. *)
Definition compare_Z (x : float) (z : Z) : option comparison :=
  match x with
  | S754_nan => None
  | S754_infinity s => Some (if s then Lt else Gt)
  | S754_zero _ => Some (0 ?= z)
  | S754_finite s m e =>
      let v := if s then Zneg m else Zpos m in
      Some (if 0 <=? e then (v * 2 ^ e ?= z) else (v ?= z * 2 ^ (- e)))
  end.

(** [round(x, 2)]: the exact value of [x] is rounded to two decimals,
    ties to even, and the resulting decimal is converted back to the
    nearest float.  Infinities, NaN and zeros round to themselves. *)
Definition round_half_even (n d : Z) : Z :=
  let q := n / d in
  let r := n mod d in
  match 2 * r ?= d with
  | Lt => q
  | Gt => q + 1
  | Eq => if Z.even q then q else q + 1
  end.

Definition round2 (x : float) : float :=
  match x with
  | S754_finite s m e =>
      let cents :=
        if 0 <=? e then Zpos m * 2 ^ e * 100
        else round_half_even (Zpos m * 100) (2 ^ (- e)) in
      of_decimal s cents (-2)
  | _ => x
  end.

End F64.

(** ** Text

    Strings are sequences of characters; the functions below cover the ASCII
    repertoire (Python additionally accepts non-ASCII decimal digits and
    spaces in [int()] and [float()]). *)

Module Text.

Definition digit (c : ascii) : option Z :=
  let n := Z.of_nat (nat_of_ascii c) in
  if (48 <=? n) && (n <=? 57) then Some (n - 48) else None.

(** The characters [int()] and [float()] strip: tab, line feed, vertical
    tab, form feed, carriage return and space. *)
Definition is_space (c : ascii) : bool :=
  let n := Z.of_nat (nat_of_ascii c) in
  ((9 <=? n) && (n <=? 13)) || (n =? 32).

Definition lower (c : ascii) : ascii :=
  let n := nat_of_ascii c in
  if (65 <=? Z.of_nat n) && (Z.of_nat n <=? 90)
  then ascii_of_nat (n + 32) else c.

Fixpoint map_string (f : ascii -> ascii) (s : string) : string :=
  match s with
  | EmptyString => EmptyString
  | String c r => String (f c) (map_string f r)
  end.

Fixpoint rev_append (s acc : string) : string :=
  match s with
  | EmptyString => acc
  | String c r => rev_append r (String c acc)
  end.

Definition rev (s : string) : string := rev_append s EmptyString.

Fixpoint lstrip (s : string) : string :=
  match s with
  | String c r => if is_space c then lstrip r else s
  | EmptyString => s
  end.

Definition strip (s : string) : string := rev (lstrip (rev (lstrip s))).

(** [c in s] for a single character [c]. *)
Fixpoint contains (c : ascii) (s : string) : bool :=
  match s with
  | EmptyString => false
  | String d r => Ascii.eqb c d || contains c r
  end.

(** [s.split(sep)] for a one-character separator. *)
Fixpoint split_at (sep : ascii) (s : string) (cur : string) : list string :=
  match s with
  | EmptyString => [rev cur]
  | String c r =>
      if Ascii.eqb c sep then rev cur :: split_at sep r EmptyString
      else split_at sep r (String c cur)
  end.

Definition split (sep : ascii) (s : string) : list string :=
  split_at sep s EmptyString.

Fixpoint repeat (s : string) (n : nat) : string :=
  match n with
  | O => EmptyString
  | S k => s ++ repeat s k
  end.

Definition len (s : string) : Z := Z.of_nat (String.length s).

(** *** Printing integers *)

Definition digit_char (d : Z) : ascii := ascii_of_nat (Z.to_nat (48 + d)).

Fixpoint digits_of (fuel : nat) (n : Z) (acc : string) : string :=
  match fuel with
  | O => acc
  | S f =>
      let acc' := String (digit_char (n mod 10)) acc in
      if n <? 10 then acc' else digits_of f (n / 10) acc'
  end.

(** Decimal digits of a non-negative integer, ["0"] for zero. *)
Definition of_nonneg (n : Z) : string :=
  digits_of (S (Z.to_nat (Z.log2 n))) n EmptyString.

Definition of_Z (z : Z) : string :=
  if z <? 0 then String "-" (of_nonneg (- z)) else of_nonneg z.

(** [n] printed with at least [w] digits, zero-padded on the left. *)
Definition zero_pad (w : nat) (n : Z) : string :=
  let s := of_nonneg n in
  repeat "0" (w - String.length s) ++ s.

(** *** Reading numbers *)

(** Digits after a first digit, with single underscores allowed between
    digits.  Returns the value, the number of digits and the rest of the
    text; [None] for a misplaced underscore. *)
Fixpoint digits_from (acc : Z) (n : Z) (s : string)
  : option (Z * Z * string) :=
  match s with
  | EmptyString => Some (acc, n, s)
  | String c r =>
      match digit c with
      | Some d => digits_from (10 * acc + d) (n + 1) r
      | None =>
          if Ascii.eqb c "_" then
            match r with
            | String c' r' =>
                match digit c' with
                | Some d => digits_from (10 * acc + d) (n + 1) r'
                | None => None
                end
            | EmptyString => None
            end
          else Some (acc, n, s)
      end
  end.

Definition digitpart (s : string) : option (Z * Z * string) :=
  match s with
  | String c r =>
      match digit c with
      | Some d => digits_from d 1 r
      | None => None
      end
  | EmptyString => None
  end.

(** An optional sign: [true] for a minus. *)
Definition sign (s : string) : bool * string :=
  match s with
  | String "-" r => (true, r)
  | String "+" r => (false, r)
  | _ => (false, s)
  end.

(** [int(s)] in base ten. *)
Definition py_int (s : string) : result Z :=
  let '(neg, u) := sign (strip s) in
  match digitpart u with
  | Some (v, _, EmptyString) => Ok (if neg then - v else v)
  | _ => Raise ValueError
  end.

Definition starts_with_digit (s : string) : bool :=
  match s with
  | String c _ => match digit c with Some _ => true | None => false end
  | EmptyString => false
  end.

(** The exponent part of a float literal, if any: the exponent and the
    rest of the text. *)
Definition exponent (s : string) : option (Z * string) :=
  match s with
  | String c r =>
      if Ascii.eqb (lower c) "e" then
        let '(neg, u) := sign r in
        match digitpart u with
        | Some (v, _, rest) => Some (if neg then - v else v, rest)
        | None => None
        end
      else Some (0, s)
  | EmptyString => Some (0, s)
  end.

(** [digitpart ["." [digitpart]] | "." digitpart]: the digits read as one
    integer, the number of digits after the point, and the rest. *)
Definition number (s : string) : option (Z * Z * string) :=
  match s with
  | String "." r =>
      match digitpart r with
      | Some (fv, fn, rest) => Some (fv, fn, rest)
      | None => None
      end
  | _ =>
      match digitpart s with
      | Some (iv, _, String "." r) =>
          if starts_with_digit r then
            match digits_from iv 0 r with
            | Some (v, fn, rest) => Some (v, fn, rest)
            | None => None
            end
          else Some (iv, 0, r)
      | Some (iv, _, rest) => Some (iv, 0, rest)
      | None => None
      end
  end.

(** [float(s)]. *)
Definition py_float (s : string) : result F64.float :=
  let '(neg, u) := sign (strip s) in
  let l := map_string lower u in
  if String.eqb l "inf" || String.eqb l "infinity" then Ok (S754_infinity neg)
  else if String.eqb l "nan" then Ok S754_nan
  else
    match number u with
    | Some (m, fn, rest) =>
        match exponent rest with
        | Some (e, EmptyString) => Ok (F64.of_decimal neg m (e - fn))
        | _ => Raise ValueError
        end
    | None => Raise ValueError
    end.

End Text.

(** ** [repr] of a float

    Python prints a float with the shortest string of digits that reads back
    as the same float and, among those, the one nearest to its exact value
    (an even last digit on a tie); the exponent form is used when the decimal point falls before the fourth
    leading zero or after the sixteenth digit. *)

Module Repr.

Fixpoint mag_up (fuel : nat) (n d k : Z) : Z :=
  match fuel with
  | O => k
  | S f => if d * 10 <=? n then mag_up f n (d * 10) (k + 1) else k
  end.

Fixpoint mag_down (fuel : nat) (n d k : Z) : Z :=
  match fuel with
  | O => k
  | S f => if n <? d then mag_down f (n * 10) d (k - 1) else k
  end.

(** The decimal exponent [k] with [10 ^ k <= n / d < 10 ^ (k + 1)]; the
    magnitudes of binary64 numbers lie between -324 and 308. *)
Definition magnitude (n d : Z) : Z :=
  if d <=? n then mag_up 400 n d 0 else mag_down 400 n d 0.

(** The integer [c] with [c * 10 ^ j] nearest to [n / d] among the multiples
    of [10 ^ j] that read back as [x]. *)
Definition candidate (x : F64.float) (n d j : Z) : option Z :=
  let a := if 0 <=? j then n else n * 10 ^ (- j) in
  let b := if 0 <=? j then d * 10 ^ j else d in
  let lo := a / b in
  let back c := F64.same (F64.of_decimal false c j) x in
  match back lo, back (lo + 1) with
  | true, true =>
      Some match 2 * (a mod b) ?= b with
           | Lt => lo
           | Gt => lo + 1
           | Eq => if Z.even lo then lo else lo + 1
           end
  | true, false => Some lo
  | false, true => Some (lo + 1)
  | false, false => None
  end.

(** The shortest digits, searched from one digit up to seventeen, which
    always identify a binary64 number, with the exponent of the last
    digit. *)
Fixpoint shortest (fuel : nat) (x : F64.float) (n d k p : Z) : Z * Z :=
  match fuel with
  | O => (0, 0)
  | S f =>
      match candidate x n d (k - p + 1) with
      | Some c => (c, k - p + 1)
      | None => shortest f x n d k (p + 1)
      end
  end.

Fixpoint strip_zeros (fuel : nat) (c j : Z) : Z * Z :=
  match fuel with
  | O => (c, j)
  | S f =>
      if (c mod 10 =? 0) && negb (c =? 0) then strip_zeros f (c / 10) (j + 1)
      else (c, j)
  end.

(** Digits and decimal point position of a positive finite float with
    mantissa [m] and exponent [e]: the value is [0.digits * 10 ^ decpt]. *)
Definition digits (m : positive) (e : Z) : string * Z :=
  let x := S754_finite false m e in
  let n := if 0 <=? e then Zpos m * 2 ^ e else Zpos m in
  let d := if 0 <=? e then 1 else 2 ^ (- e) in
  let k := magnitude n d in
  let '(c, j) := shortest 17 x n d k 1 in
  let '(c', j') := strip_zeros 18 c j in
  let s := Text.of_nonneg c' in
  (s, j' + Text.len s).

Definition exp_text (e : Z) : string :=
  (if e <? 0 then "-" else "+") ++ Text.zero_pad 2 (Z.abs e).

Definition layout (ds : string) (decpt : Z) : string :=
  if (decpt <=? -4) || (16 <? decpt) then
    match ds with
    | String c EmptyString => String c ("e" ++ exp_text (decpt - 1))
    | String c r => String c ("." ++ r ++ "e" ++ exp_text (decpt - 1))
    | EmptyString => EmptyString
    end
  else if decpt <=? 0 then
    "0." ++ Text.repeat "0" (Z.to_nat (- decpt)) ++ ds
  else if decpt <? Text.len ds then
    substring 0 (Z.to_nat decpt) ds ++ "."
      ++ substring (Z.to_nat decpt) (String.length ds - Z.to_nat decpt) ds
  else
    ds ++ Text.repeat "0" (Z.to_nat (decpt - Text.len ds)) ++ ".0".

Definition with_sign (s : bool) (t : string) : string :=
  if s then String "-" t else t.

Definition repr (x : F64.float) : string :=
  match x with
  | S754_nan => "nan"
  | S754_infinity s => with_sign s "inf"
  | S754_zero s => with_sign s "0.0"
  | S754_finite s m e =>
      let '(ds, decpt) := digits m e in
      with_sign s (layout ds decpt)
  end.

End Repr.

(** ** Python values *)

Inductive value : Type :=
| VNone
| VBool (b : bool)
| VInt (z : Z)
| VFloat (f : F64.float)
| VStr (s : string)
| VDate (y m d : Z).

(** Float literals of the source, as the parser rounds them. *)
Definition f_0_01 : F64.float := Eval vm_compute in F64.of_decimal false 1 (-2).
Definition f_0_02 : F64.float := Eval vm_compute in F64.of_decimal false 2 (-2).
Definition f_0_05 : F64.float := Eval vm_compute in F64.of_decimal false 5 (-2).
Definition f_0_10 : F64.float := Eval vm_compute in F64.of_decimal false 10 (-2).

Module Py.

(** The numeric view of a value: [bool] is a subclass of [int]. *)
Inductive num : Type :=
| NInt (z : Z)
| NFloat (f : F64.float).

Definition as_num (v : value) : option num :=
  match v with
  | VBool b => Some (NInt (Z.b2z b))
  | VInt z => Some (NInt z)
  | VFloat f => Some (NFloat f)
  | _ => None
  end.

(** Conversion of an operand to [float] in mixed arithmetic; an integer
    beyond the float range raises [OverflowError]. *)
Definition to_float (n : num) : result F64.float :=
  match n with
  | NFloat f => Ok f
  | NInt z =>
      match F64.of_Z z with
      | S754_infinity _ => Raise OverflowError
      | f => Ok f
      end
  end.

Definition ssize_max : Z := 2 ^ 63 - 1.

(** [s * n] for a string and an integer. *)
Definition repeat_str (s : string) (n : Z) : result value :=
  if (n <? - 2 ^ 63) || (ssize_max <? n) then Raise OverflowError
  else if n <=? 0 then Ok (VStr "")
  else if ssize_max / n <? Text.len s then Raise OverflowError
  else Ok (VStr (Text.repeat s (Z.to_nat n))).

(** [a * b] *)
Definition mul (a b : value) : result value :=
  match as_num a, as_num b with
  | Some (NInt x), Some (NInt y) => Ok (VInt (x * y))
  | Some x, Some y =>
      fx <- to_float x;; fy <- to_float y;; Ok (VFloat (F64.mul fx fy))
  | None, Some (NInt n) =>
      match a with VStr s => repeat_str s n | _ => Raise TypeError end
  | Some (NInt n), None =>
      match b with VStr s => repeat_str s n | _ => Raise TypeError end
  | _, _ => Raise TypeError
  end.

(** [a + b] *)
Definition add (a b : value) : result value :=
  match as_num a, as_num b with
  | Some (NInt x), Some (NInt y) => Ok (VInt (x + y))
  | Some x, Some y =>
      fx <- to_float x;; fy <- to_float y;; Ok (VFloat (F64.add fx fy))
  | _, _ =>
      match a, b with
      | VStr s, VStr t => Ok (VStr (s ++ t))
      | _, _ => Raise TypeError
      end
  end.

(** Numbers are compared by exact value; a NaN compares with nothing. *)
Definition num_compare (x y : num) : option comparison :=
  match x, y with
  | NInt a, NInt b => Some (a ?= b)
  | NFloat a, NFloat b => F64.compare a b
  | NFloat a, NInt b => F64.compare_Z a b
  | NInt a, NFloat b => option_map CompOpp (F64.compare_Z b a)
  end.

Definition date_compare (a b : Z * Z * Z) : comparison :=
  let '(y1, m1, d1) := a in
  let '(y2, m2, d2) := b in
  match y1 ?= y2 with
  | Eq => match m1 ?= m2 with Eq => d1 ?= d2 | c => c end
  | c => c
  end.

(** Ordering of two values; [TypeError] for operands of unrelated types. *)
Definition compare (a b : value) : result (option comparison) :=
  match as_num a, as_num b with
  | Some x, Some y => Ok (num_compare x y)
  | _, _ =>
      match a, b with
      | VStr s, VStr t => Ok (Some (String.compare s t))
      | VDate y1 m1 d1, VDate y2 m2 d2 =>
          Ok (Some (date_compare (y1, m1, d1) (y2, m2, d2)))
      | _, _ => Raise TypeError
      end
  end.

(** [a < b] *)
Definition lt (a b : value) : result bool :=
  c <- compare a b;;
  Ok match c with Some Lt => true | _ => false end.

(** [a >= b] *)
Definition ge (a b : value) : result bool :=
  c <- compare a b;;
  Ok match c with Some Gt | Some Eq => true | _ => false end.

(** [a == b] on numbers. *)
Definition num_eqb (x y : num) : bool :=
  match num_compare x y with Some Eq => true | _ => false end.

(** [min(a, b)]: the first argument unless the second is smaller. *)
Definition min (a b : value) : result value :=
  c <- lt b a;; Ok (if c then b else a).

(** [round(v, 2)] *)
Definition round2 (v : value) : result value :=
  match v with
  | VBool b => Ok (VInt (Z.b2z b))
  | VInt z => Ok (VInt z)
  | VFloat f => Ok (VFloat (F64.round2 f))
  | _ => Raise TypeError
  end.

(** Truth value of an object. *)
Definition truthy (v : value) : bool :=
  match v with
  | VNone => false
  | VBool b => b
  | VInt z => negb (z =? 0)
  | VFloat f => negb (F64.is_zero f)
  | VStr s => negb (String.eqb s "")
  | VDate _ _ _ => true
  end.

(** [str(v)] *)
Definition str (v : value) : string :=
  match v with
  | VNone => "None"
  | VBool b => if b then "True" else "False"
  | VInt z => Text.of_Z z
  | VFloat f => Repr.repr f
  | VStr s => s
  | VDate y m d =>
      Text.zero_pad 4 y ++ "-" ++ Text.zero_pad 2 m ++ "-" ++ Text.zero_pad 2 d
  end.

(** Structural equality of values, the equality of dictionary keys.  On
    strings and [None], the types of an employee id, it is Python's.
    (Python also takes numbers of equal value for one key.) *)
Definition eqb (a b : value) : bool :=
  match a, b with
  | VNone, VNone => true
  | VBool x, VBool y => Bool.eqb x y
  | VInt x, VInt y => x =? y
  | VFloat x, VFloat y => F64.same x y
  | VStr x, VStr y => String.eqb x y
  | VDate y1 m1 d1, VDate y2 m2 d2 => (y1 =? y2) && (m1 =? m2) && (d1 =? d2)
  | _, _ => false
  end.

(** [a == b]: numbers by value, so that a NaN equals nothing, and other
    values by type and content. *)
Definition eq (a b : value) : bool :=
  match as_num a, as_num b with
  | Some x, Some y => num_eqb x y
  | _, _ => eqb a b
  end.

End Py.

(** ** Calendar dates *)

Module Date.

Record t : Type := mk { year : Z; month : Z; day : Z }.

Definition is_leap (y : Z) : bool :=
  (y mod 4 =? 0) && (negb (y mod 100 =? 0) || (y mod 400 =? 0)).

Definition days_in_month (y m : Z) : Z :=
  if m =? 2 then (if is_leap y then 29 else 28)
  else if (m =? 4) || (m =? 6) || (m =? 9) || (m =? 11) then 30
  else 31.

Definition valid (d : t) : bool :=
  (1 <=? year d) && (year d <=? 9999)
  && (1 <=? month d) && (month d <=? 12)
  && (1 <=? day d) && (day d <=? days_in_month (year d) (month d)).

Definition c_int (z : Z) : bool := (- 2 ^ 31 <=? z) && (z <? 2 ^ 31).

(** [date(y, m, d)]: the arguments must fit a C [int] ([OverflowError])
    and name a day of the calendar ([ValueError]). *)
Definition make (y m d : Z) : result t :=
  if negb (c_int y && c_int m && c_int d) then Raise OverflowError
  else if valid (mk y m d) then Ok (mk y m d)
  else Raise ValueError.

End Date.

(** ** Dictionaries

    A Python [dict] keeps its items in insertion order; assigning to a key
    that is present replaces the value in place. *)

Module Dict.

Section Ops.
Context {K V : Type} (eqb : K -> K -> bool).

Fixpoint get (k : K) (d : list (K * V)) : option V :=
  match d with
  | [] => None
  | (k', v) :: r => if eqb k k' then Some v else get k r
  end.

Fixpoint set (k : K) (v : V) (d : list (K * V)) : list (K * V) :=
  match d with
  | [] => [(k, v)]
  | (k', v') :: r =>
      if eqb k k' then (k', v) :: r else (k', v') :: set k v r
  end.

Fixpoint del (k : K) (d : list (K * V)) : list (K * V) :=
  match d with
  | [] => []
  | (k', v') :: r => if eqb k k' then r else (k', v') :: del k r
  end.

Definition mem (k : K) (d : list (K * V)) : bool :=
  match get k d with Some _ => true | None => false end.

(** [d.update(items)] *)
Definition update (items : list (K * V)) (d : list (K * V)) : list (K * V) :=
  fold_left (fun acc kv => set (fst kv) (snd kv) acc) items d.

End Ops.

Definition keys {K V : Type} (d : list (K * V)) : list K := map fst d.
Definition values {K V : Type} (d : list (K * V)) : list V := map snd d.

End Dict.

(** The attribute dictionary of an employee: field name to value. *)
Definition attrs : Type := list (string * value).

Definition getattr (k : string) (d : attrs) : option value :=
  Dict.get String.eqb k d.

Definition setattr (k : string) (v : value) (d : attrs) : attrs :=
  Dict.set String.eqb k v d.

(** [d[k]], raising [KeyError] for a missing key. *)
Definition getitem (k : string) (d : attrs) : result value :=
  match getattr k d with
  | Some v => Ok v
  | None => Raise KeyError
  end.

(** ** The employee classes

    An object is its class and its [data] dictionary. *)

Inductive cls : Type :=
| CEmployee
| CFullTime
| CPartTime
| CIntern.

Record employee : Type := mkEmployee { emp_class : cls; data : attrs }.

Definition with_data (e : employee) (d : attrs) : employee :=
  {| emp_class := emp_class e; data := d |}.

Module Employee.

Definition default_role : value := VStr "Employee".

(** [Employee.__init__] *)
Definition init (emp_id name join_date role : value) : employee :=
  {| emp_class := CEmployee;
     data := [("emp_id", emp_id); ("name", name);
              ("join_date", join_date); ("role", role)] |}.

(** [Employee.calculate_salary] *)
Definition calculate_salary (self : employee) : result value :=
  Raise NotImplementedError.

(** The join date as a calendar date: a string is split at its dashes
    and must give three integers that name a day. *)
Definition join_date (jd : value) : result Date.t :=
  match jd with
  | VStr s =>
      match Text.split "-" s with
      | [y; m; d] =>
          y' <- Text.py_int y;;
          m' <- Text.py_int m;;
          d' <- Text.py_int d;;
          Date.make y' m' d'
      | _ => Raise ValueError
      end
  | VDate y m d => Ok (Date.mk y m d)
  | _ => Raise AttributeError
  end.

(** [(m1, d1) < (m2, d2)] *)
Definition before (m1 d1 m2 d2 : Z) : bool :=
  (m1 <? m2) || ((m1 =? m2) && (d1 <? d2)).

(** [Employee.years_of_service], with [date.today()] as a parameter. *)
Definition years_of_service (self : employee) (today : Date.t) : result Z :=
  jd <- getitem "join_date" (data self);;
  jd <- join_date jd;;
  Ok (Date.year today - Date.year jd
      - Z.b2z (before (Date.month today) (Date.day today)
                      (Date.month jd) (Date.day jd))).

(** [Employee.to_dict]: a copy of the data dictionary. *)
Definition to_dict (self : employee) : attrs := data self.

End Employee.

Module FullTime.

Definition default_role : value := VStr "Full-Time".

(** [FullTime.__init__] *)
Definition init (emp_id name join_date monthly_salary role : value)
  : employee :=
  let base := Employee.init emp_id name join_date role in
  {| emp_class := CFullTime;
     data := Dict.update String.eqb
               [("monthly_salary", monthly_salary);
                ("bonus_percent", VFloat f_0_05)]
               (data base) |}.

(** [min((years // 3) * 0.01, 0.05)] *)
Definition extra_rate (years : Z) : result value :=
  scaled <- Py.mul (VInt (years / 3)) (VFloat f_0_01);;
  Py.min scaled (VFloat f_0_05).

(** [FullTime.calculate_salary] *)
Definition calculate_salary (self : employee) (months : value)
    (apply_bonus : bool) (today : Date.t) : result value :=
  monthly_salary <- getitem "monthly_salary" (data self);;
  base <- Py.mul monthly_salary months;;
  if apply_bonus then
    years <- Employee.years_of_service self today;;
    extra <- extra_rate years;;
    bonus_percent <- getitem "bonus_percent" (data self);;
    bonus_rate <- Py.add bonus_percent extra;;
    bonus_amount <- Py.mul base bonus_rate;;
    total <- Py.add base bonus_amount;;
    Py.round2 total
  else Py.round2 base.

Definition default_months : value := VInt 1.

End FullTime.

Module PartTime.

Definition default_role : value := VStr "Part-Time".

(** [PartTime.__init__] *)
Definition init (emp_id name join_date hourly_rate role : value)
  : employee :=
  let base := Employee.init emp_id name join_date role in
  {| emp_class := CPartTime;
     data := Dict.update String.eqb
               [("hourly_rate", hourly_rate); ("monthly_hours", VInt 0)]
               (data base) |}.

(** The statements before the assignment to [monthly_hours]: the earned
    pay and the bonus. *)
Definition pay_and_bonus (self : employee) (hours_worked : value)
    (apply_bonus : bool) : result (value * value) :=
  hourly_rate <- getitem "hourly_rate" (data self);;
  base <- Py.mul hourly_rate hours_worked;;
  enough <- (if apply_bonus then Py.ge hours_worked (VInt 80) else Ok false);;
  bonus_amount <- (if enough then Py.mul base (VFloat f_0_02)
                   else Ok (VInt 0));;
  Ok (base, bonus_amount).

(** [PartTime.calculate_salary]: the object after the call and the
    outcome.  An exception raised before the assignment leaves the object
    as it was; one raised after it does not undo the assignment. *)
Definition calculate_salary (self : employee) (hours_worked : value)
    (apply_bonus : bool) : employee * result value :=
  match pay_and_bonus self hours_worked apply_bonus with
  | Raise e => (self, Raise e)
  | Ok (base, bonus_amount) =>
      (with_data self (setattr "monthly_hours" hours_worked (data self)),
       total <- Py.add base bonus_amount;; Py.round2 total)
  end.

End PartTime.

Module Intern.

Definition default_role : value := VStr "Intern".

(** [Intern.__init__] *)
Definition init (emp_id name join_date stipend role : value) : employee :=
  let base := Employee.init emp_id name join_date role in
  {| emp_class := CIntern;
     data := Dict.update String.eqb
               [("stipend", stipend); ("completed", VBool false)]
               (data base) |}.

(** [self.data.get('completed', False)] *)
Definition completed (self : employee) : value :=
  match getattr "completed" (data self) with
  | Some v => v
  | None => VBool false
  end.

(** [Intern.calculate_salary] *)
Definition calculate_salary (self : employee)
    (apply_completion_allowance : bool) : result value :=
  base <- getitem "stipend" (data self);;
  allowance <- (if apply_completion_allowance && Py.truthy (completed self)
                then Py.mul (VFloat f_0_10) base
                else Ok (VInt 0));;
  total <- Py.add base allowance;;
  Py.round2 total.

End Intern.

(** ** The storage file

    The file is seen through the [csv] module: a sequence of records, each
    a list of cells, the first one the header.  [records] are the records
    as a writer was given them; [failure] is the error, if any, that opening
    or reading the file raises once those records have been delivered.  The
    program writes with [newline=''] and reads with universal newlines, so
    a reader sees every carriage return of a cell as a line feed. *)

Record csv_file : Type := mkFile {
  records : list (list string);
  failure : option exn
}.

(** The file system at [storage_file]: the file if the path exists, and
    whether the path can be opened for writing. *)
Record disk : Type := mkDisk {
  content : option csv_file;
  writable : bool
}.

Module Csv.

Definition cr : ascii := ascii_of_nat 13.
Definition lf : ascii := ascii_of_nat 10.

Fixpoint universal_newlines (s : string) : string :=
  match s with
  | EmptyString => EmptyString
  | String c r =>
      if Ascii.eqb c cr then
        String lf
          match r with
          | String c' r' =>
              if Ascii.eqb c' lf then universal_newlines r'
              else universal_newlines r
          | EmptyString => EmptyString
          end
      else String c (universal_newlines r)
  end.

(** The text the writer puts in a cell: nothing for [None], the string
    itself, [str(v)] otherwise. *)
Definition cell (v : value) : string :=
  match v with
  | VNone => ""
  | _ => Py.str v
  end.

(** [DictWriter]: one cell per field name, empty for a missing key. *)
Definition row_cells (fieldnames : list string) (row : attrs) : list string :=
  map (fun k => match getattr k row with
                | Some v => cell v
                | None => ""
                end) fieldnames.

(** [DictReader]: the cells of a record under the field names of the
    header; a field without a cell is [None].  (Cells beyond the header,
    which the reader files under the key [None] and the loader copies to
    the object under that key, are left out.) *)
Fixpoint read_row (fieldnames cells : list string)
    (d : list (string * option string)) : list (string * option string) :=
  match fieldnames, cells with
  | [], _ => d
  | k :: ks, c :: cs => read_row ks cs (Dict.set String.eqb k (Some c) d)
  | k :: ks, [] => read_row ks [] (Dict.set String.eqb k None d)
  end.

End Csv.

(** ** The registry *)

Definition registry : Type := list (value * employee).

Module HRSystem.

(** [add_employee] *)
Definition add_employee (employee_obj : employee) (employees : registry)
  : registry * result unit :=
  match getitem "emp_id" (data employee_obj) with
  | Ok emp_id => (Dict.set Py.eqb emp_id employee_obj employees, Ok tt)
  | Raise e => (employees, Raise e)
  end.

(** [remove_employee] *)
Definition remove_employee (emp_id : value) (employees : registry)
  : registry :=
  if Dict.mem Py.eqb emp_id employees then Dict.del Py.eqb emp_id employees
  else employees.

(** [get_employee] *)
Definition get_employee (emp_id : value) (employees : registry)
  : option employee :=
  Dict.get Py.eqb emp_id employees.

(** [list_employees] *)
Definition list_employees (employees : registry) : list attrs :=
  map Employee.to_dict (Dict.values employees).

(** *** Saving *)

Fixpoint insert_key (k : string) (l : list string) : list string :=
  match l with
  | [] => [k]
  | h :: t =>
      match String.compare k h with
      | Lt => k :: l
      | Eq => l
      | Gt => h :: insert_key k t
      end
  end.

(** [sorted(all_keys)] for the set of the keys of all rows. *)
Definition sorted_keys (rows : list attrs) : list string :=
  fold_left
    (fun acc d => fold_left (fun a k => insert_key k a) (Dict.keys d) acc)
    rows [].

(** [save_to_file]: the file system after the call and the outcome. *)
Definition save_to_file (employees : registry) (fs : disk)
  : disk * result unit :=
  match employees with
  | [] => (fs, Ok tt)
  | _ =>
      let rows := map Employee.to_dict (Dict.values employees) in
      let all_keys := sorted_keys rows in
      if writable fs then
        ({| content :=
              Some {| records := all_keys :: map (Csv.row_cells all_keys) rows;
                      failure := None |};
            writable := true |},
         Ok tt)
      else (fs, Raise OSError)
  end.

(** *** Loading *)

Definition row : Type := list (string * option string).

(** [row.get(k)] *)
Definition row_get (k : string) (r : row) : option string :=
  match Dict.get String.eqb k r with
  | Some c => c
  | None => None
  end.

Definition cell_value (c : option string) : value :=
  match c with
  | Some s => VStr s
  | None => VNone
  end.

Definition cell_is (c : option string) (s : string) : bool :=
  match c with
  | Some t => String.eqb t s
  | None => false
  end.

(** [float(row.get(k, 0) or 0)] *)
Definition float_or_zero (k : string) (r : row) : result value :=
  match row_get k r with
  | Some s =>
      if String.eqb s "" then Ok (VFloat (S754_zero false))
      else f <- Text.py_float s;; Ok (VFloat f)
  | None => Ok (VFloat (S754_zero false))
  end.

(** The object the loader builds from the role of a row. *)
Definition instantiate (r : row) : result employee :=
  let role :=
    match Dict.get String.eqb "role" r with
    | Some c => c
    | None => Some ""
    end in
  let emp_id := cell_value (row_get "emp_id" r) in
  let name := cell_value (row_get "name" r) in
  let join_date := cell_value (row_get "join_date" r) in
  if cell_is role "Full-Time" then
    monthly_salary <- float_or_zero "monthly_salary" r;;
    Ok (FullTime.init emp_id name join_date monthly_salary
          FullTime.default_role)
  else if cell_is role "Part-Time" then
    hourly <- float_or_zero "hourly_rate" r;;
    let emp := PartTime.init emp_id name join_date hourly
                 PartTime.default_role in
    match row_get "monthly_hours" r with
    | Some mh =>
        if String.eqb mh "" then Ok emp
        else
          f <- Text.py_float mh;;
          Ok (with_data emp (setattr "monthly_hours" (VFloat f) (data emp)))
    | None => Ok emp
    end
  else if cell_is role "Intern" then
    stipend <- float_or_zero "stipend" r;;
    let emp := Intern.init emp_id name join_date stipend
                 Intern.default_role in
    let c := row_get "completed" r in
    if cell_is c "True" || cell_is c "true" || cell_is c "1" then
      Ok (with_data emp (setattr "completed" (VBool true) (data emp)))
    else Ok emp
  else
    Ok (Employee.init emp_id name join_date (cell_value role)).

Definition is_common (k : string) : bool :=
  String.eqb k "emp_id" || String.eqb k "name"
  || String.eqb k "join_date" || String.eqb k "role".

(** One turn of the loop over [row.items()]. *)
Definition update_field (emp : employee) (kv : string * option string)
  : employee :=
  let '(k, v) := kv in
  if is_common k then emp
  else
    match v with
    | None => emp
    | Some s =>
        if String.eqb s "" then emp
        else
          let num :=
            if Text.contains "." s then f <- Text.py_float s;; Ok (VFloat f)
            else z <- Text.py_int s;; Ok (VInt z) in
          match num with
          | Ok n => with_data emp (setattr k n (data emp))
          | Raise _ => with_data emp (setattr k (VStr s) (data emp))
          end
    end.

(** The body of the loop over the rows: the key and the object stored. *)
Definition load_row (r : row) : result (value * employee) :=
  emp <- instantiate r;;
  Ok (cell_value (row_get "emp_id" r), fold_left update_field r emp).

(** The loop over the rows of the reader, which skips empty records.  The
    registry is filled as the rows go; an exception leaves the rows stored
    so far in it. *)
Fixpoint load_rows (fieldnames : list string) (rows : list (list string))
    (employees : registry) : registry * result unit :=
  match rows with
  | [] => (employees, Ok tt)
  | [] :: rest => load_rows fieldnames rest employees
  | cells :: rest =>
      match load_row (Csv.read_row fieldnames cells []) with
      | Ok (emp_id, emp) =>
          load_rows fieldnames rest (Dict.set Py.eqb emp_id emp employees)
      | Raise e => (employees, Raise e)
      end
  end.

Definition end_of_file (f : csv_file) : result unit :=
  match failure f with
  | Some e => Raise e
  | None => Ok tt
  end.

(** The [try] block of [_load_from_file]. *)
Definition read_file (f : csv_file) (employees : registry)
  : registry * result unit :=
  match map (map Csv.universal_newlines) (records f) with
  | [] => (employees, end_of_file f)
  | fieldnames :: rows =>
      match load_rows fieldnames rows employees with
      | (employees', Ok _) => (employees', end_of_file f)
      | (employees', Raise e) => (employees', Raise e)
      end
  end.

(** [_load_from_file] *)
Definition _load_from_file (fs : disk) (employees : registry)
  : registry * result unit :=
  match content fs with
  | None => (employees, Ok tt)
  | Some f =>
      match read_file f employees with
      | (employees', Ok _) => (employees', Ok tt)
      | (_, Raise _) => ([], Ok tt)
      end
  end.

(** [HRSystem.__init__] *)
Definition init (fs : disk) : registry * result unit :=
  _load_from_file fs [].

End HRSystem.

(** ** Calls and histories *)

(** [emp.calculate_salary()] with no argument, resolved on the class of the
    object: the defaults of the subclasses apply, and [PartTime] misses its
    required [hours_worked]. *)
Definition call_calculate_salary (self : employee) (today : Date.t)
  : result value :=
  match emp_class self with
  | CEmployee => Employee.calculate_salary self
  | CFullTime =>
      FullTime.calculate_salary self FullTime.default_months false today
  | CPartTime => Raise TypeError
  | CIntern => Intern.calculate_salary self false
  end.

(** The operations that change a registry. *)
Inductive op : Type :=
| Add (employee_obj : employee)
| Remove (emp_id : value)
| Load (fs : disk).

Definition step (employees : registry) (o : op) : registry :=
  match o with
  | Add e => fst (HRSystem.add_employee e employees)
  | Remove k => HRSystem.remove_employee k employees
  | Load fs => fst (HRSystem._load_from_file fs employees)
  end.

Definition run (ops : list op) (employees : registry) : registry :=
  fold_left step ops employees.

(** An employee id is a string, or [None] for a row without an id. *)
Definition is_id (v : value) : bool :=
  match v with
  | VStr _ | VNone => true
  | _ => false
  end.

(** The objects a history adds carry ids, if they carry an [emp_id]. *)
Definition typed (o : op) : Prop :=
  match o with
  | Add e => forall v, getattr "emp_id" (data e) = Some v -> is_id v = true
  | _ => True
  end.

(** Every key of the registry is an id, and the [emp_id] of the object it
    maps to. *)
Definition consistent (employees : registry) : Prop :=
  forall k e, In (k, e) employees ->
              getattr "emp_id" (data e) = Some k /\ is_id k = true.

(** The float literal [1.10]. *)
Definition f_1_10 : F64.float := Eval vm_compute in F64.of_decimal false 110 (-2).

(** ** Sample data *)

(** A history that loads a file, adds two employees under one id, removes
    an absent id and adds a third employee. *)
Definition sample_history : list op :=
  [ Load {| content :=
              Some {| records := [["emp_id"; "role"]; ["X1"; "Manager"]];
                      failure := None |};
            writable := true |};
    Add (FullTime.init (VStr "FT001") (VStr "Alice kumar") (VStr "2018-06-15")
           (VInt 80000) FullTime.default_role);
    Add (Intern.init (VStr "FT001") (VStr "Charu Rai") (VStr "2024-07-01")
           (VInt 15000) Intern.default_role);
    Remove (VStr "ZZ999");
    Add (PartTime.init (VStr "PT101") (VStr "Bikash Singh") (VStr "2022-01-10")
           (VInt 500) PartTime.default_role) ].

(** A file whose second row has a salary that is not a number, and a file
    that cannot be decoded after its first row. *)
Definition bad_salary_file : csv_file :=
  {| records := [["emp_id"; "monthly_salary"; "role"];
                 ["FT001"; "80000"; "Full-Time"];
                 ["FT002"; "eighty thousand"; "Full-Time"]];
     failure := None |}.

Definition truncated_file : csv_file :=
  {| records := [["emp_id"; "role"]; ["X1"; "Manager"]];
     failure := Some UnicodeDecodeError |}.

Definition bikash : employee :=
  PartTime.init (VStr "PT101") (VStr "Bikash Singh") (VStr "2022-01-10")
    (VInt 500) PartTime.default_role.

Definition charu (stipend : value) (completed : bool) : employee :=
  let e := Intern.init (VStr "IN900") (VStr "Charu Rai") (VStr "2024-07-01")
             stipend Intern.default_role in
  with_data e (setattr "completed" (VBool completed) (data e)).

Definition empty_disk : disk := {| content := None; writable := true |}.

(** A full-time employee whose monthly salary is the float [1e16]. *)
Definition wealthy : employee :=
  FullTime.init (VStr "FT001") (VStr "Alice kumar") (VStr "2018-06-15")
    (VFloat (F64.of_decimal false 1 16)) FullTime.default_role.

(** The demonstration registry of the program. *)
Definition demo_registry : registry :=
  [ (VStr "FT001",
     FullTime.init (VStr "FT001") (VStr "Alice kumar") (VStr "2018-06-15")
       (VInt 80000) FullTime.default_role);
    (VStr "PT101", bikash);
    (VStr "IN900", charu (VInt 15000) true) ].

(** The header and a row of the file [save_to_file] writes for a registry of
    interns, here for an intern who has not completed. *)
Definition intern_header : list string :=
  ["completed"; "emp_id"; "join_date"; "name"; "role"; "stipend"].

Definition intern_row (completed : string) : HRSystem.row :=
  Csv.read_row intern_header
    [completed; "IN900"; "2024-07-01"; "Charu Rai"; "Intern"; "15000"] [].

(** An employee whose id holds a carriage return. *)
Definition cr_id : string := "A" ++ String Csv.cr "B".
Definition lf_id : string := "A" ++ String Csv.lf "B".

Definition cr_employee : employee :=
  Employee.init (VStr cr_id) (VStr "Dana") (VStr "2020-02-29")
    Employee.default_role.

(** ** Checking a range of integers *)

Fixpoint all_from (n : nat) (lo : Z) (p : Z -> bool) : bool :=
  match n with
  | O => true
  | S k => p lo && all_from k (lo + 1) p
  end.

(** The extra rate after [3 * k] years, NaN standing for a call that does
    not return a float. *)
Definition rate (k : Z) : F64.float :=
  match FullTime.extra_rate (3 * k) with
  | Ok (VFloat r) => r
  | _ => S754_nan
  end.

(** What is checked at each [k]: the call returns a float, which is at most
    the next one and at most the cap, and is the cap from [k = 5] on. *)
Definition rate_ok (k : Z) : bool :=
  match FullTime.extra_rate (3 * k) with
  | Ok (VFloat r) =>
      negb (F64.is_nan r)
      && F64.leb r (rate (k + 1))
      && F64.leb r f_0_05
      && (if 5 <=? k then F64.same r f_0_05 else true)
  | _ => false
  end.

(** ** Notions used in the statements *)

(** A list of field names in strictly ascending order, the order of
    [sorted] on distinct strings. *)
Fixpoint ascending (l : list string) : Prop :=
  match l with
  | a :: (b :: _) as t => String.compare a b = Lt /\ ascending t
  | _ => True
  end.

(** Every character of a text satisfies [P]. *)
Fixpoint every (P : ascii -> Prop) (s : string) : Prop :=
  match s with
  | EmptyString => True
  | String c r => P c /\ every P r
  end.

(** The value the loop over the columns stores for a cell that is not
    empty: the [try] block of the loop and its [except] clause. *)
Definition decode (s : string) : value :=
  if Text.contains "." s then
    match Text.py_float s with
    | Ok f => VFloat f
    | Raise _ => VStr s
    end
  else
    match Text.py_int s with
    | Ok z => VInt z
    | Raise _ => VStr s
    end.

(** The ten decimal digits. *)
Definition is_decimal_char (c : ascii) : Prop :=
  exists d, 0 <= d <= 9 /\ c = Text.digit_char d.

(** Text without a carriage return, which reading leaves as it is. *)
Definition no_cr (s : string) : Prop :=
  every (fun c => Ascii.eqb c Csv.cr = false) s.

(** The cells of an employee's row as the reader delivers them, and the
    cell of one column. *)
Definition cells_of (header : list string) (e : employee) : list string :=
  map Csv.universal_newlines (Csv.row_cells header (data e)).

Definition delivered (e : employee) (column : string) : string :=
  Csv.universal_newlines
    match getattr column (data e) with
    | Some v => Csv.cell v
    | None => ""
    end.

(** What a saved entry of the registry keeps when it is loaded again: its
    key, its [emp_id], a role that is text, and the integers of the fields
    that the loop over the columns decides. *)
Definition survives (saved loaded : value * employee) : Prop :=
  fst loaded = fst saved
  /\ getattr "emp_id" (data (snd loaded)) = Some (fst saved)
  /\ (forall role,
        getattr "role" (data (snd saved)) = Some (VStr role) ->
        no_cr role ->
        getattr "role" (data (snd loaded)) = Some (VStr role))
  /\ (forall column z,
        HRSystem.is_common column = false ->
        getattr column (data (snd saved)) = Some (VInt z) ->
        getattr column (data (snd loaded)) = Some (VInt z)).

(** ** More sample data *)

(** An object that lost its [emp_id]. *)
Definition nameless : employee := {| emp_class := CEmployee; data := [] |}.

(** A part-time record as the loader leaves it for the rate "1e+16". *)
Definition text_rate_employee : employee :=
  with_data bikash (setattr "hourly_rate" (VStr "1e+16") (data bikash)).

(** An employee who joined on a leap day, as a date and as text. *)
Definition leap_employee (join_date : value) : employee :=
  Employee.init (VStr "E29") (VStr "Dana") join_date Employee.default_role.

(** Rows as the reader delivers them: a full-time row, and an intern row
    whose stipend is no number. *)
Definition full_time_row : HRSystem.row :=
  Csv.read_row ["emp_id"; "name"; "role"; "monthly_salary"; "monthly_hours"]
    ["F1"; "Al"; "Full-Time"; "10"; "90"] [].

Definition bad_intern_row : HRSystem.row :=
  Csv.read_row ["role"; "stipend"] ["Intern"; "lots"] [].

(** Records whose salary field holds the text the loader leaves for the
    cell "1e+16". *)
Definition text_salary_employee : employee :=
  with_data wealthy (setattr "monthly_salary" (VStr "1e+16") (data wealthy)).

Definition text_stipend_intern : employee :=
  let e := charu (VInt 15000) true in
  with_data e (setattr "stipend" (VStr "1e+16") (data e)).


(** * Properties *)

(** ** Keys and dictionaries *)

Lemma F64_same_eq (x y : F64.float) : F64.same x y = true -> x = y.
Proof.
  destruct x, y; simpl; try discriminate; try reflexivity.
  - intros H. apply Bool.eqb_prop in H. now subst.
  - intros H. apply Bool.eqb_prop in H. now subst.
  - intros H.
    apply andb_prop in H as [H He].
    apply andb_prop in H as [Hs Hm].
    apply Bool.eqb_prop in Hs. apply Pos.eqb_eq in Hm. apply Z.eqb_eq in He.
    now subst.
Qed.

Lemma Py_eqb_eq (a b : value) : Py.eqb a b = true -> a = b.
Proof.
  destruct a, b; simpl; try discriminate; try reflexivity; intros H.
  - apply Bool.eqb_prop in H. now subst.
  - apply Z.eqb_eq in H. now subst.
  - apply F64_same_eq in H. now subst.
  - apply String.eqb_eq in H. now subst.
  - apply andb_prop in H as [H Hd]. apply andb_prop in H as [Hy Hm].
    apply Z.eqb_eq in Hy, Hm, Hd. now subst.
Qed.

Lemma getattr_setattr_eq (k : string) (v : value) (d : attrs) :
  getattr k (setattr k v d) = Some v.
Proof.
  unfold getattr, setattr.
  induction d as [|[k' v'] d IH]; simpl.
  - now rewrite String.eqb_refl.
  - destruct (String.eqb k k') eqn:E; simpl; rewrite E; auto.
Qed.

Lemma getattr_setattr_ne (k k' : string) (v : value) (d : attrs) :
  k <> k' -> getattr k (setattr k' v d) = getattr k d.
Proof.
  intros Hne. unfold getattr, setattr.
  induction d as [|[k0 v0] d IH]; simpl.
  - apply String.eqb_neq in Hne. now rewrite Hne.
  - destruct (String.eqb k' k0) eqn:E; simpl.
    + apply String.eqb_eq in E. subst k0.
      apply String.eqb_neq in Hne. now rewrite Hne.
    + now rewrite IH.
Qed.

Lemma in_set (k : value) (e : employee) (employees : registry) k0 e0 :
  In (k0, e0) (Dict.set Py.eqb k e employees) ->
  In (k0, e0) employees \/ (k0 = k /\ e0 = e).
Proof.
  induction employees as [|[k' e'] r IH]; simpl.
  - intros [H|[]]. inversion H. now right.
  - destruct (Py.eqb k k') eqn:E; simpl.
    + intros [H|H].
      * inversion H; subst. apply Py_eqb_eq in E. now right.
      * left. now right.
    + intros [H|H].
      * left. now left.
      * destruct (IH H) as [H'|H']; [left; now right | now right].
Qed.

Lemma in_del (k : value) (employees : registry) k0 e0 :
  In (k0, e0) (Dict.del Py.eqb k employees) -> In (k0, e0) employees.
Proof.
  induction employees as [|[k' e'] r IH]; simpl; auto.
  destruct (Py.eqb k k'); simpl.
  - now right.
  - intros [H|H]; [now left | right; auto].
Qed.

Lemma consistent_nil : consistent [].
Proof. intros k e []. Qed.

Lemma consistent_set (k : value) (e : employee) (employees : registry) :
  consistent employees ->
  getattr "emp_id" (data e) = Some k ->
  is_id k = true ->
  consistent (Dict.set Py.eqb k e employees).
Proof.
  intros Hc He Hk k0 e0 Hin.
  destruct (in_set _ _ _ _ _ Hin) as [H|[-> ->]]; auto.
Qed.

Lemma eq_refl_id (k : value) : is_id k = true -> Py.eq k k = true.
Proof.
  destruct k; try discriminate; intros _; [reflexivity|].
  unfold Py.eq. simpl. apply String.eqb_refl.
Qed.

Lemma cell_value_is_id (c : option string) : is_id (HRSystem.cell_value c) = true.
Proof. destruct c; reflexivity. Qed.

Lemma consistent_del (k : value) (employees : registry) :
  consistent employees -> consistent (Dict.del Py.eqb k employees).
Proof. intros Hc k0 e0 Hin. apply Hc. eapply in_del; eauto. Qed.

(** ** The loader keeps the id of a row *)

Lemma bind_ok {A B : Type} (r : result A) (k : A -> result B) (b : B) :
  bind r k = Ok b -> exists a, r = Ok a /\ k a = Ok b.
Proof. destruct r; simpl; [eauto | discriminate]. Qed.

Lemma instantiate_id (r : HRSystem.row) (e : employee) :
  HRSystem.instantiate r = Ok e ->
  getattr "emp_id" (data e) = Some (HRSystem.cell_value (HRSystem.row_get "emp_id" r)).
Proof.
  unfold HRSystem.instantiate.
  repeat match goal with
         | |- context [if ?c then _ else _] => destruct c
         | |- context [match HRSystem.row_get "monthly_hours" r with _ => _ end] =>
             destruct (HRSystem.row_get "monthly_hours" r)
         end;
    intros H;
    repeat match goal with
           | H : bind _ _ = Ok _ |- _ => apply bind_ok in H as (? & ? & H)
           end;
    inversion H; subst; reflexivity.
Qed.

Lemma update_field_id (emp : employee) (kv : string * option string) :
  getattr "emp_id" (data (HRSystem.update_field emp kv))
  = getattr "emp_id" (data emp).
Proof.
  destruct kv as [k v]. unfold HRSystem.update_field.
  destruct (HRSystem.is_common k) eqn:Hc; [reflexivity|].
  assert (Hne : "emp_id" <> k).
  { intros <-. discriminate Hc. }
  destruct v as [s|]; [|reflexivity].
  destruct (String.eqb s ""); [reflexivity|].
  match goal with
  | |- context [match ?n with Ok _ => _ | Raise _ => _ end] => destruct n
  end; simpl; now apply getattr_setattr_ne.
Qed.

Lemma fold_update_field_id (r : HRSystem.row) (emp : employee) :
  getattr "emp_id" (data (fold_left HRSystem.update_field r emp))
  = getattr "emp_id" (data emp).
Proof.
  revert emp. induction r as [|kv r IH]; intros emp; simpl; [reflexivity|].
  rewrite IH. apply update_field_id.
Qed.

Lemma load_row_id (r : HRSystem.row) (k : value) (e : employee) :
  HRSystem.load_row r = Ok (k, e) -> getattr "emp_id" (data e) = Some k.
Proof.
  unfold HRSystem.load_row. intros H.
  apply bind_ok in H as (emp & Hi & H). inversion H; subst.
  rewrite fold_update_field_id. now apply instantiate_id.
Qed.

Lemma load_rows_consistent (fieldnames : list string)
    (rows : list (list string)) (employees : registry) :
  consistent employees ->
  consistent (fst (HRSystem.load_rows fieldnames rows employees)).
Proof.
  revert employees.
  induction rows as [|cells rest IH]; intros employees Hc; simpl; [exact Hc|].
  destruct cells as [|c cs]; [now apply IH|].
  destruct (HRSystem.load_row _) as [[k e]|x] eqn:E; [|exact Hc].
  apply IH. apply consistent_set; [exact Hc | eapply load_row_id; eauto |].
  unfold HRSystem.load_row in E. apply bind_ok in E as (emp & _ & E).
  inversion E. apply cell_value_is_id.
Qed.

Lemma load_from_file_consistent (fs : disk) (employees : registry) :
  consistent employees ->
  consistent (fst (HRSystem._load_from_file fs employees)).
Proof.
  intros Hc. unfold HRSystem._load_from_file.
  destruct (content fs) as [f|]; [|exact Hc].
  unfold HRSystem.read_file.
  destruct (map _ (records f)) as [|fieldnames rows].
  - destruct (HRSystem.end_of_file f); simpl; [exact Hc | apply consistent_nil].
  - pose proof (load_rows_consistent fieldnames rows employees Hc) as Hl.
    destruct (HRSystem.load_rows fieldnames rows employees) as [reg' [u|x]];
      simpl in *.
    + destruct (HRSystem.end_of_file f); simpl; [exact Hl | apply consistent_nil].
    + apply consistent_nil.
Qed.

Lemma step_consistent (o : op) (employees : registry) :
  typed o -> consistent employees -> consistent (step employees o).
Proof.
  intros Ht Hc. destruct o as [e|k|fs]; simpl.
  - unfold HRSystem.add_employee, getitem.
    destruct (getattr "emp_id" (data e)) as [k|] eqn:E; simpl; [|exact Hc].
    apply consistent_set; auto.
  - unfold HRSystem.remove_employee.
    destruct (Dict.mem _ _ _); [now apply consistent_del | exact Hc].
  - now apply load_from_file_consistent.
Qed.

Lemma run_consistent (ops : list op) (employees : registry) :
  Forall typed ops -> consistent employees -> consistent (run ops employees).
Proof.
  unfold run. revert employees.
  induction ops as [|o ops IH]; intros employees Ht Hc; simpl; [exact Hc|].
  inversion Ht; subst. apply IH; [assumption|]. now apply step_consistent.
Qed.

(** C10.  Registry key consistency: after any sequence of [add_employee],
    [remove_employee] and [_load_from_file] calls on a registry that starts
    empty, every key [k] of the registry maps to an object [e] with
    [e.data['emp_id'] == k].  The ids of the objects added are strings or
    [None], as the ids the loader makes are. *)
Theorem registry_keys_are_emp_ids (ops : list op) (k : value) (e : employee) :
  Forall typed ops ->
  In (k, e) (run ops []) ->
  exists v, getattr "emp_id" (data e) = Some v /\ Py.eq v k = true.
Proof.
  intros Ht Hin.
  destruct (run_consistent ops [] Ht consistent_nil k e Hin) as [Hv Hk].
  exists k. split; [exact Hv | now apply eq_refl_id].
Qed.

Lemma registry_keys_are_emp_ids_witness :
  exists e,
    In (VStr "FT001", e) (run sample_history [])
    /\ emp_class e = CIntern
    /\ exists v, getattr "emp_id" (data e) = Some v
                 /\ Py.eq v (VStr "FT001") = true.
Proof.
  eexists. split; [right; left; reflexivity|]. split; [reflexivity|].
  apply (registry_keys_are_emp_ids sample_history (VStr "FT001")).
  - repeat constructor; simpl; intros v H; inversion H; reflexivity.
  - right; left; reflexivity.
Defined.

(** ** Loading is fail-safe *)

(** C3.  Loading is fail-safe-empty.  [_load_from_file] never raises.  If
    the storage file does not exist it leaves the registry as it is, so the
    registry of a new [HRSystem] is empty.  If the [try] block raises, at
    whatever point and with whatever rows already stored, the registry is
    left empty. *)
Theorem load_is_fail_safe_empty (fs : disk) (employees : registry) :
  snd (HRSystem._load_from_file fs employees) = Ok tt
  /\ (content fs = None ->
      HRSystem._load_from_file fs employees = (employees, Ok tt)
      /\ HRSystem.init fs = ([], Ok tt))
  /\ (forall f partial e,
        content fs = Some f ->
        HRSystem.read_file f employees = (partial, Raise e) ->
        HRSystem._load_from_file fs employees = ([], Ok tt)).
Proof.
  unfold HRSystem.init, HRSystem._load_from_file.
  split; [|split].
  - destruct (content fs) as [f|]; [|reflexivity].
    destruct (HRSystem.read_file f employees) as [reg' [u|x]]; reflexivity.
  - intros ->. split; reflexivity.
  - intros f partial e -> ->. reflexivity.
Qed.

Lemma load_is_fail_safe_empty_witness :
  (exists partial,
      HRSystem.read_file bad_salary_file [] = (partial, Raise ValueError)
      /\ partial <> []
      /\ HRSystem.init (mkDisk (Some bad_salary_file) true) = ([], Ok tt))
  /\ HRSystem.init (mkDisk (Some truncated_file) true) = ([], Ok tt)
  /\ HRSystem.init (mkDisk None true) = ([], Ok tt).
Proof.
  split; [|split].
  - eexists. split; [vm_compute; reflexivity|]. split; [discriminate|].
    refine (proj2 (proj2 (load_is_fail_safe_empty
                            (mkDisk (Some bad_salary_file) true) []))
              bad_salary_file _ ValueError eq_refl _).
    vm_compute; reflexivity.
  - refine (proj2 (proj2 (load_is_fail_safe_empty
                            (mkDisk (Some truncated_file) true) []))
              truncated_file _ UnicodeDecodeError eq_refl _).
    vm_compute; reflexivity.
  - exact (proj2 (proj1 (proj2 (load_is_fail_safe_empty (mkDisk None true) []))
                    eq_refl)).
Defined.

(** ** Saving an empty registry *)

(** C4.  With an empty registry [save_to_file] returns without touching the
    file system: no file is created, and a file that exists keeps its
    content, whether or not the path is writable. *)
Theorem save_empty_registry_is_noop (fs : disk) :
  HRSystem.save_to_file [] fs = (fs, Ok tt).
Proof. reflexivity. Qed.

(** A registry that is not empty replaces the file when the path can be
    written. *)
Lemma save_nonempty_writes (kv : value * employee) (rest : registry)
    (fs : disk) :
  writable fs = true ->
  exists f, HRSystem.save_to_file (kv :: rest) fs = (mkDisk (Some f) true, Ok tt)
            /\ failure f = None
            /\ List.length (records f) = S (List.length (kv :: rest)).
Proof.
  intros Hw. unfold HRSystem.save_to_file. rewrite Hw.
  eexists. split; [reflexivity|]. split; [reflexivity|].
  simpl. unfold Dict.values. now rewrite !length_map.
Qed.

(** ** Salary rules *)

(** C5.  A full-time salary without bonus is [round(monthly_salary * months,
    2)]: the call computes exactly that product and that rounding, and fails
    exactly when they fail. *)
Theorem fulltime_salary_without_bonus (self : employee)
    (monthly_salary months : value) (today : Date.t) :
  getattr "monthly_salary" (data self) = Some monthly_salary ->
  FullTime.calculate_salary self months false today
  = (base <- Py.mul monthly_salary months;; Py.round2 base).
Proof.
  intros H. unfold FullTime.calculate_salary, getitem. now rewrite H.
Qed.

Lemma fulltime_salary_without_bonus_witness :
  FullTime.calculate_salary
    (FullTime.init (VStr "FT001") (VStr "Alice kumar") (VStr "2018-06-15")
       (VInt 80000) FullTime.default_role)
    (VInt 3) false (Date.mk 2025 1 1)
  = Ok (VInt 240000)
  /\ FullTime.calculate_salary
       (FullTime.init (VStr "FT002") (VStr "Dev") (VStr "2018-06-15")
          (VFloat (F64.of_decimal false 2500125 (-3))) FullTime.default_role)
       (VInt 3) false (Date.mk 2025 1 1)
     = Ok (VFloat (F64.of_decimal false 750038 (-2))).
Proof.
  split.
  - rewrite (fulltime_salary_without_bonus _ (VInt 80000)); reflexivity.
  - rewrite (fulltime_salary_without_bonus _
               (VFloat (F64.of_decimal false 2500125 (-3))));
      [vm_compute; reflexivity | reflexivity].
Defined.

(** On numbers the call returns: an integer product is its own rounding,
    and a float product is rounded to two decimals. *)
Lemma fulltime_salary_int (self : employee) (s m : Z) (today : Date.t) :
  getattr "monthly_salary" (data self) = Some (VInt s) ->
  FullTime.calculate_salary self (VInt m) false today = Ok (VInt (s * m)).
Proof.
  intros H. unfold FullTime.calculate_salary, getitem. now rewrite H.
Qed.

Lemma fulltime_salary_float (self : employee) (s m : F64.float)
    (today : Date.t) :
  getattr "monthly_salary" (data self) = Some (VFloat s) ->
  FullTime.calculate_salary self (VFloat m) false today
  = Ok (VFloat (F64.round2 (F64.mul s m))).
Proof.
  intros H. unfold FullTime.calculate_salary, getitem. now rewrite H.
Qed.

(** C7.  A part-time salary is [round(base + bonus, 2)] with [base =
    hourly_rate * hours_worked] and [bonus = base * 0.02] when [apply_bonus]
    holds and [hours_worked >= 80], and [0] otherwise; and a call that
    returns has stored [hours_worked] in [monthly_hours], over the value
    that was there, and changed nothing else. *)
Theorem parttime_salary (self : employee) (hourly_rate hours_worked : value)
    (apply_bonus : bool) :
  getattr "hourly_rate" (data self) = Some hourly_rate ->
  let out := PartTime.calculate_salary self hours_worked apply_bonus in
  snd out
  = (base <- Py.mul hourly_rate hours_worked;;
     enough <- (if apply_bonus then Py.ge hours_worked (VInt 80)
                else Ok false);;
     bonus <- (if enough then Py.mul base (VFloat f_0_02) else Ok (VInt 0));;
     total <- Py.add base bonus;;
     Py.round2 total)
  /\ (forall r, snd out = Ok r ->
        emp_class (fst out) = emp_class self
        /\ getattr "monthly_hours" (data (fst out)) = Some hours_worked
        /\ forall k, k <> "monthly_hours" ->
             getattr k (data (fst out)) = getattr k (data self)).
Proof.
  intros H out. subst out.
  unfold PartTime.calculate_salary, PartTime.pay_and_bonus, getitem.
  rewrite H. simpl.
  destruct (Py.mul hourly_rate hours_worked) as [base|x]; simpl;
    [|split; [reflexivity | discriminate]].
  destruct (if apply_bonus then Py.ge hours_worked (VInt 80) else Ok false)
    as [enough|x]; simpl; [|split; [reflexivity | discriminate]].
  destruct (if enough then Py.mul base (VFloat f_0_02) else Ok (VInt 0))
    as [bonus|x]; simpl; [|split; [reflexivity | discriminate]].
  split; [reflexivity|].
  intros r _. split; [reflexivity|]. split.
  - apply getattr_setattr_eq.
  - intros k Hk. now apply getattr_setattr_ne.
Qed.

(** At a rate of 500: 79 hours pay 39500 (the integer, equal to 39500.0) and
    80 hours pay 40800.0; the object then records 80 hours, where a new
    object records 0. *)
Lemma parttime_salary_witness :
  snd (PartTime.calculate_salary bikash (VInt 79) true) = Ok (VInt 39500)
  /\ Py.num_eqb (Py.NInt 39500) (Py.NFloat (F64.of_Z 39500)) = true
  /\ snd (PartTime.calculate_salary bikash (VInt 80) true)
     = Ok (VFloat (F64.of_Z 40800))
  /\ getattr "monthly_hours" (data bikash) = Some (VInt 0)
  /\ getattr "monthly_hours"
       (data (fst (PartTime.calculate_salary bikash (VInt 80) true)))
     = Some (VInt 80).
Proof.
  pose proof (parttime_salary bikash (VInt 500) (VInt 79) true eq_refl) as H79.
  pose proof (parttime_salary bikash (VInt 500) (VInt 80) true eq_refl) as H80.
  cbv zeta in H79, H80.
  destruct H79 as [V79 _]. destruct H80 as [V80 M80].
  split; [rewrite V79; vm_compute; reflexivity|].
  split; [vm_compute; reflexivity|].
  assert (R80 : snd (PartTime.calculate_salary bikash (VInt 80) true)
                = Ok (VFloat (F64.of_Z 40800))).
  { rewrite V80. vm_compute. reflexivity. }
  split; [exact R80|].
  split; [reflexivity|].
  exact (proj1 (proj2 (M80 _ R80))).
Defined.

(** C8, as amended.  With the allowance requested, an intern whose
    [completed] field is false is paid as without it; one whose [completed]
    field is true is paid [round(stipend + 0.10 * stipend, 2)]. *)
Theorem intern_salary_with_allowance (self : employee) (stipend : value) :
  getattr "stipend" (data self) = Some stipend ->
  (Py.truthy (Intern.completed self) = false ->
   Intern.calculate_salary self true = Intern.calculate_salary self false)
  /\ (Py.truthy (Intern.completed self) = true ->
      Intern.calculate_salary self true
      = (allowance <- Py.mul (VFloat f_0_10) stipend;;
         total <- Py.add stipend allowance;;
         Py.round2 total)).
Proof.
  intros H. unfold Intern.calculate_salary, getitem. rewrite H. simpl.
  split; intros ->; reflexivity.
Qed.

(** A stipend of 15000 pays 16500.0 once the internship is completed, and
    15000 before. *)
Lemma intern_salary_with_allowance_witness :
  Intern.calculate_salary (charu (VInt 15000) true) true
  = Ok (VFloat (F64.of_Z 16500))
  /\ Intern.calculate_salary (charu (VInt 15000) false) true = Ok (VInt 15000).
Proof.
  split.
  - rewrite (proj2 (intern_salary_with_allowance
                      (charu (VInt 15000) true) (VInt 15000) eq_refl) eq_refl).
    vm_compute. reflexivity.
  - rewrite (proj1 (intern_salary_with_allowance
                      (charu (VInt 15000) false) (VInt 15000) eq_refl) eq_refl).
    vm_compute. reflexivity.
Defined.

(** C8, as stated, fails: the pay is not [round(1.10 * stipend, 2)].  For a
    completed intern with a stipend of 10000.05 the code pays 11000.05, and
    [round(1.10 * 10000.05, 2)] is 11000.06. *)
Lemma intern_salary_is_not_1_10_times_stipend :
  let stipend := VFloat (F64.of_decimal false 1000005 (-2)) in
  Intern.calculate_salary (charu stipend true) true
  = Ok (VFloat (F64.of_decimal false 1100005 (-2)))
  /\ (product <- Py.mul (VFloat f_1_10) stipend;; Py.round2 product)
     = Ok (VFloat (F64.of_decimal false 1100006 (-2)))
  /\ Intern.calculate_salary (charu stipend true) true
     <> (product <- Py.mul (VFloat f_1_10) stipend;; Py.round2 product).
Proof.
  vm_compute. repeat split; discriminate.
Qed.

(** ** The base class *)

(** C9.  Salary computation is unsupported on a generic employee: the call
    raises [NotImplementedError] and returns no value. *)
Theorem generic_employee_salary_unsupported (self : employee)
    (today : Date.t) :
  emp_class self = CEmployee ->
  call_calculate_salary self today = Raise NotImplementedError
  /\ Employee.calculate_salary self = Raise NotImplementedError
  /\ forall v, call_calculate_salary self today <> Ok v.
Proof.
  intros H. unfold call_calculate_salary. rewrite H.
  repeat split. discriminate.
Qed.

Lemma update_field_class (emp : employee) (kv : string * option string) :
  emp_class (HRSystem.update_field emp kv) = emp_class emp.
Proof.
  destruct kv as [k [s|]]; unfold HRSystem.update_field;
    destruct (HRSystem.is_common k); try reflexivity.
  destruct (String.eqb s ""); [reflexivity|].
  match goal with
  | |- context [match ?n with Ok _ => _ | Raise _ => _ end] => destruct n
  end; reflexivity.
Qed.

Lemma fold_update_field_class (r : HRSystem.row) (emp : employee) :
  emp_class (fold_left HRSystem.update_field r emp) = emp_class emp.
Proof.
  revert emp. induction r as [|kv r IH]; intros emp; simpl; [reflexivity|].
  rewrite IH. apply update_field_class.
Qed.

(** The class the loader gives a row follows its role, and a row of any
    other role loads as a generic employee. *)
Lemma load_row_class (r : HRSystem.row) (k : value) (e : employee) :
  HRSystem.load_row r = Ok (k, e) ->
  emp_class e =
    match Dict.get String.eqb "role" r with
    | Some (Some role) =>
        if String.eqb role "Full-Time" then CFullTime
        else if String.eqb role "Part-Time" then CPartTime
        else if String.eqb role "Intern" then CIntern
        else CEmployee
    | _ => CEmployee
    end.
Proof.
  unfold HRSystem.load_row. intros H.
  apply bind_ok in H as (emp & Hi & H). inversion H; subst.
  rewrite fold_update_field_class. revert Hi.
  unfold HRSystem.instantiate.
  destruct (Dict.get String.eqb "role" r) as [[role|]|]; simpl;
    repeat match goal with
           | |- context [if ?c then _ else _] => destruct c
           | |- context [match HRSystem.row_get "monthly_hours" r with _ => _ end] =>
               destruct (HRSystem.row_get "monthly_hours" r)
           end;
    intros Hi;
    repeat match goal with
           | H : bind _ _ = Ok _ |- _ => apply bind_ok in H as (? & ? & H)
           end;
    inversion Hi; subst; reflexivity.
Qed.

(** A row with the role "Manager" loads as a generic employee, on which
    the call raises. *)
Lemma generic_employee_salary_unsupported_witness :
  exists e,
    HRSystem.load_row
      (Csv.read_row ["emp_id"; "name"; "role"] ["X1"; "Dana"; "Manager"] [])
    = Ok (VStr "X1", e)
    /\ call_calculate_salary e (Date.mk 2025 1 1) = Raise NotImplementedError.
Proof.
  eexists. split; [vm_compute; reflexivity|].
  match goal with
  | |- call_calculate_salary ?e ?d = _ =>
      exact (proj1 (generic_employee_salary_unsupported e d eq_refl))
  end.
Defined.

(** ** The bonus rate of long service *)

Lemma all_from_spec (n : nat) (lo : Z) (p : Z -> bool) :
  all_from n lo p = true ->
  forall z, lo <= z < lo + Z.of_nat n -> p z = true.
Proof.
  revert lo. induction n as [|n IH]; intros lo H z Hz; [lia|].
  simpl in H. apply andb_prop in H as [H0 H].
  destruct (Z.eq_dec z lo) as [->|Hne]; [exact H0|].
  apply (IH (lo + 1) H). lia.
Qed.

Lemma leb_trans (x y z : F64.float) :
  F64.leb x y = true -> F64.leb y z = true -> F64.leb x z = true.
Proof.
  unfold F64.leb, SFleb, SFcompare.
  destruct x as [sx|sx| |sx mx ex], y as [sy|sy| |sy my ey],
    z as [sz|sz| |sz mz ez];
    repeat match goal with s : bool |- _ => destruct s end;
    try (intros; reflexivity); try (intros; discriminate);
    change (PosDef.Pos.compare_cont Eq mx my) with (Pos.compare mx my);
    change (PosDef.Pos.compare_cont Eq my mz) with (Pos.compare my mz);
    change (PosDef.Pos.compare_cont Eq mx mz) with (Pos.compare mx mz);
    destruct (Z.compare_spec ex ey), (Z.compare_spec ey ez),
      (Z.compare_spec ex ez);
    try (intros; reflexivity); try (intros; discriminate); try lia;
    destruct (Pos.compare_spec mx my), (Pos.compare_spec my mz),
      (Pos.compare_spec mx mz);
    cbv beta iota delta [CompOpp];
    try (intros; reflexivity); try (intros; discriminate); try lia.
Qed.

Lemma leb_refl (x : F64.float) : F64.is_nan x = false -> F64.leb x x = true.
Proof.
  unfold F64.leb, SFleb, SFcompare.
  destruct x as [s|s| |s m e]; try destruct s; simpl;
    try reflexivity; try discriminate;
    intros _; rewrite Z.compare_refl;
    change (PosDef.Pos.compare_cont Eq m m) with (Pos.compare m m);
    rewrite Pos.compare_refl; reflexivity.
Qed.

(** The rate depends on the years through [years // 3] only. *)
Lemma extra_rate_div (years : Z) :
  FullTime.extra_rate years = FullTime.extra_rate (3 * (years / 3)).
Proof.
  unfold FullTime.extra_rate.
  now rewrite (Z.mul_comm 3), Z.div_mul by lia.
Qed.

Lemma rate_checked : all_from (Z.to_nat 6667) (-3333) rate_ok = true.
Proof. vm_compute. reflexivity. Qed.

Lemma rate_facts (k : Z) :
  -3333 <= k <= 3333 ->
  FullTime.extra_rate (3 * k) = Ok (VFloat (rate k))
  /\ F64.is_nan (rate k) = false
  /\ F64.leb (rate k) (rate (k + 1)) = true
  /\ F64.leb (rate k) f_0_05 = true
  /\ (5 <= k -> rate k = f_0_05).
Proof.
  intros Hk.
  assert (H : rate_ok k = true).
  { apply (all_from_spec _ _ _ rate_checked). lia. }
  unfold rate_ok in H. unfold rate at 1 2 3 5 6.
  destruct (FullTime.extra_rate (3 * k)) as [[| | |r| |]|]; try discriminate.
  apply andb_prop in H as [H H4]. apply andb_prop in H as [H H3].
  apply andb_prop in H as [H1 H2].
  repeat split; auto.
  - now destruct (F64.is_nan r).
  - intros H5. apply Z.leb_le in H5. rewrite H5 in H4. now apply F64_same_eq.
Qed.

Lemma rate_monotone (n : nat) (k : Z) :
  -3333 <= k -> k + Z.of_nat n <= 3333 ->
  F64.leb (rate k) (rate (k + Z.of_nat n)) = true.
Proof.
  induction n as [|n IH]; intros Hlo Hhi.
  - rewrite Z.add_0_r. apply leb_refl. apply rate_facts. lia.
  - apply (leb_trans _ (rate (k + Z.of_nat n))); [apply IH; lia|].
    replace (k + Z.of_nat (S n)) with (k + Z.of_nat n + 1) by lia.
    apply rate_facts. lia.
Qed.

(** C6.  The extra bonus rate [min((years // 3) * 0.01, 0.05)] is
    non-decreasing in the years of service and never above 0.05; it is 0.0
    for 0 to 2 years, 0.01 for 3 to 5 years and 0.05 from 15 years on.  The
    years range over what [years_of_service] can return: both dates have
    years between 1 and 9999. *)
Theorem extra_rate_nondecreasing_and_capped (y1 y2 : Z) :
  -9999 <= y1 -> y1 <= y2 -> y2 <= 9999 ->
  exists r1 r2,
    FullTime.extra_rate y1 = Ok (VFloat r1)
    /\ FullTime.extra_rate y2 = Ok (VFloat r2)
    /\ F64.leb r1 r2 = true
    /\ F64.leb r2 f_0_05 = true
    /\ (0 <= y2 <= 2 -> r2 = S754_zero false)
    /\ (3 <= y2 <= 5 -> r2 = f_0_01)
    /\ (15 <= y2 -> r2 = f_0_05).
Proof.
  intros Hlo Hle Hhi.
  assert (B1 : -3333 <= y1 / 3 <= 3333).
  { split; [apply Z.div_le_lower_bound | apply Z.div_le_upper_bound]; lia. }
  assert (B2 : -3333 <= y2 / 3 <= 3333).
  { split; [apply Z.div_le_lower_bound | apply Z.div_le_upper_bound]; lia. }
  assert (M : y1 / 3 <= y2 / 3) by (apply Z.div_le_mono; lia).
  exists (rate (y1 / 3)), (rate (y2 / 3)).
  destruct (rate_facts _ B1) as (E1 & _).
  destruct (rate_facts _ B2) as (E2 & _ & _ & C2 & T2).
  rewrite (extra_rate_div y1), (extra_rate_div y2).
  repeat split; auto.
  - replace (y2 / 3) with (y1 / 3 + Z.of_nat (Z.to_nat (y2 / 3 - y1 / 3)))
      by lia.
    apply rate_monotone; lia.
  - intros H. replace (y2 / 3) with 0; [reflexivity|].
    symmetry. apply Z.div_small. lia.
  - intros H. replace (y2 / 3) with 1; [reflexivity|].
    apply (Z.div_unique y2 3 1 (y2 - 3)); lia.
  - intros H. apply T2. apply Z.div_le_lower_bound; lia.
Qed.

Lemma extra_rate_nondecreasing_and_capped_witness :
  exists r1 r2,
    FullTime.extra_rate 4 = Ok (VFloat r1)
    /\ FullTime.extra_rate 16 = Ok (VFloat r2)
    /\ F64.leb r1 r2 = true
    /\ r1 = f_0_01
    /\ r2 = f_0_05.
Proof.
  destruct (extra_rate_nondecreasing_and_capped 4 16) as
    (r1 & r2 & E1 & E2 & L & _ & _ & _ & T); [lia | lia | lia |].
  exists r1, r2. repeat split; auto.
  - vm_compute in E1. now inversion E1.
  - apply T. lia.
Defined.

Lemma make_valid (y m d : Z) (t : Date.t) :
  Date.make y m d = Ok t -> Date.valid t = true.
Proof.
  unfold Date.make.
  destruct (negb _); [discriminate|].
  destruct (Date.valid (Date.mk y m d)) eqn:V; [|discriminate].
  intros H. inversion H. now subst.
Qed.

Lemma valid_year (t : Date.t) : Date.valid t = true -> 1 <= Date.year t <= 9999.
Proof.
  unfold Date.valid. intros H.
  repeat (apply andb_prop in H as [H ?]).
  apply Z.leb_le in H. lia.
Qed.

(** The years of service are within the range of C6 whenever the call
    returns: a join date given as text is validated by [date], and a join
    date given as a date object is a day of the calendar. *)
Lemma years_of_service_range (self : employee) (today : Date.t) (years : Z) :
  Date.valid today = true ->
  (forall y m d, getattr "join_date" (data self) = Some (VDate y m d) ->
                 Date.valid (Date.mk y m d) = true) ->
  Employee.years_of_service self today = Ok years ->
  -9999 <= years <= 9999.
Proof.
  intros Ht Hd. unfold Employee.years_of_service, getitem.
  destruct (getattr "join_date" (data self)) as [jd|] eqn:E; [|discriminate].
  simpl. intros H. apply bind_ok in H as (t & Hj & H).
  assert (Hv : Date.valid t = true).
  { destruct jd; try discriminate.
    - simpl in Hj. destruct (Text.split "-" s) as [|a [|b [|c [|? ?]]]];
        try discriminate.
      apply bind_ok in Hj as (? & _ & Hj). apply bind_ok in Hj as (? & _ & Hj).
      apply bind_ok in Hj as (? & _ & Hj). eapply make_valid; eauto.
    - simpl in Hj. inversion Hj; subst. now apply Hd. }
  apply valid_year in Ht, Hv. inversion H; subst.
  destruct (Employee.before _ _ _ _); simpl; lia.
Qed.

(** ** Persistence *)

(** The demonstration registry survives a save and a load: the same ids in
    the same order, the same classes, and salaries, rates, hours and
    stipends that are the same numbers. *)
Example demo_registry_roundtrip :
  exists fs employees,
    HRSystem.save_to_file demo_registry empty_disk = (fs, Ok tt)
    /\ HRSystem.init fs = (employees, Ok tt)
    /\ Dict.keys employees = Dict.keys demo_registry
    /\ map emp_class (Dict.values employees)
       = map emp_class (Dict.values demo_registry)
    /\ map (fun e => getattr "role" (data e)) (Dict.values employees)
       = map (fun e => getattr "role" (data e)) (Dict.values demo_registry)
    /\ map (fun e => map (fun k => getattr k (data e))
                       ["monthly_salary"; "bonus_percent"; "hourly_rate";
                        "monthly_hours"; "stipend"])
         (Dict.values employees)
       = map (fun e => map (fun k => getattr k (data e))
                         ["monthly_salary"; "bonus_percent"; "hourly_rate";
                          "monthly_hours"; "stipend"])
           (Dict.values demo_registry).
Proof.
  eexists. eexists. split; [reflexivity|]. split; [vm_compute; reflexivity|].
  vm_compute. repeat split.
Qed.

(** An id with a carriage return comes back with a line feed: the file is
    written with [newline=''] and read with universal newlines. *)
Example carriage_return_id_roundtrip :
  exists fs e,
    HRSystem.save_to_file [(VStr cr_id, cr_employee)] empty_disk = (fs, Ok tt)
    /\ HRSystem.init fs = ([(VStr lf_id, e)], Ok tt)
    /\ cr_id <> lf_id.
Proof.
  eexists. eexists. split; [reflexivity|]. split; [vm_compute; reflexivity|].
  discriminate.
Qed.

(** C1 fails on the code.  A monthly salary of [1e16] is written as
    ["1e+16"]; the loader reads that cell as a float first and then, in its
    loop over the columns, stores the cell again as text, because the text
    has no point and is not an integer.  The loaded record holds the string
    ["1e+16"], not a number, and its salary can no longer be computed. *)
Theorem roundtrip_turns_exponent_salary_into_text :
  exists fs e,
    HRSystem.save_to_file [(VStr "FT001", wealthy)] empty_disk = (fs, Ok tt)
    /\ content fs
       = Some {| records :=
                   [["bonus_percent"; "emp_id"; "join_date"; "monthly_salary";
                     "name"; "role"];
                    ["0.05"; "FT001"; "2018-06-15"; "1e+16"; "Alice kumar";
                     "Full-Time"]];
                 failure := None |}
    /\ HRSystem.init fs = ([(VStr "FT001", e)], Ok tt)
    /\ emp_class e = CFullTime
    /\ getattr "monthly_salary" (data wealthy)
       = Some (VFloat (F64.of_decimal false 1 16))
    /\ getattr "monthly_salary" (data e) = Some (VStr "1e+16")
    /\ Py.as_num (VStr "1e+16") = None
    /\ FullTime.calculate_salary wealthy (VInt 1) false (Date.mk 2025 1 1)
       = Ok (VFloat (F64.of_decimal false 1 16))
    /\ FullTime.calculate_salary e (VInt 1) false (Date.mk 2025 1 1)
       = Raise TypeError.
Proof.
  eexists. eexists. split; [reflexivity|].
  split; [vm_compute; reflexivity|].
  split; [vm_compute; reflexivity|].
  vm_compute. repeat split.
Qed.

(** C2 fails on the code.  For an intern row the loader sets [completed]
    from the three accepted spellings, and its loop over the columns then
    stores the cell again: as an integer when it reads as one, as the text
    itself otherwise.  The cell ["False"], which is what [save_to_file]
    writes for an intern who has not completed, loads as the string
    ["False"], which is true, and the loaded intern is paid the completion
    allowance. *)
Theorem loaded_intern_completed_False_is_true :
  exists fs e,
    HRSystem.save_to_file [(VStr "IN900", charu (VInt 15000) false)] empty_disk
    = (fs, Ok tt)
    /\ content fs
       = Some {| records :=
                   [intern_header;
                    ["False"; "IN900"; "2024-07-01"; "Charu Rai"; "Intern";
                     "15000"]];
                 failure := None |}
    /\ HRSystem.load_row (intern_row "False") = Ok (VStr "IN900", e)
    /\ HRSystem.init fs = ([(VStr "IN900", e)], Ok tt)
    /\ emp_class e = CIntern
    /\ getattr "completed" (data e) = Some (VStr "False")
    /\ Py.truthy (Intern.completed e) = true
    /\ Intern.calculate_salary (charu (VInt 15000) false) true
       = Ok (VInt 15000)
    /\ Intern.calculate_salary e true = Ok (VFloat (F64.of_Z 16500)).
Proof.
  eexists. eexists. split; [reflexivity|].
  split; [vm_compute; reflexivity|].
  split; [vm_compute; reflexivity|].
  vm_compute. repeat split.
Qed.

(** What the loader leaves in [completed] for a few cells: the accepted
    spellings are true, and so is every other text that is not a zero. *)
Example loaded_completed_cells :
  map (fun c =>
         match HRSystem.load_row (intern_row c) with
         | Ok (_, e) => Some (Intern.completed e, Py.truthy (Intern.completed e))
         | Raise _ => None
         end)
    ["True"; "true"; "1"; "False"; "false"; "no"; "0"; ""]
  = [Some (VStr "True", true); Some (VStr "true", true);
     Some (VInt 1, true); Some (VStr "False", true);
     Some (VStr "false", true); Some (VStr "no", true);
     Some (VInt 0, false); Some (VBool false, false)].
Proof. vm_compute. reflexivity. Qed.

(** * The registry, the loader and the saved file *)

(** ** The registry as a dictionary *)

Lemma F64_same_refl (x : F64.float) : F64.same x x = true.
Proof.
  destruct x as [s|s| |s m e]; simpl; try reflexivity;
    try (destruct s; reflexivity).
  now rewrite Bool.eqb_reflx, Pos.eqb_refl, Z.eqb_refl.
Qed.

Lemma Py_eqb_refl (a : value) : Py.eqb a a = true.
Proof.
  destruct a; simpl; try reflexivity.
  - apply Bool.eqb_reflx.
  - apply Z.eqb_refl.
  - apply F64_same_refl.
  - apply String.eqb_refl.
  - now rewrite !Z.eqb_refl.
Qed.

Section DictFacts.

Context {K V : Type} (eqb : K -> K -> bool).
Hypothesis eqb_eq : forall a b, eqb a b = true <-> a = b.

Lemma eqb_refl' (a : K) : eqb a a = true.
Proof. now apply eqb_eq. Qed.

Lemma eqb_neq' (a b : K) : a <> b -> eqb a b = false.
Proof.
  intros H. destruct (eqb a b) eqn:E; [|reflexivity].
  apply eqb_eq in E. contradiction.
Qed.

Lemma dict_get_set_same (k : K) (v : V) (d : list (K * V)) :
  Dict.get eqb k (Dict.set eqb k v d) = Some v.
Proof.
  induction d as [|[k' v'] r IH]; simpl.
  - now rewrite eqb_refl'.
  - destruct (eqb k k') eqn:E; simpl; rewrite E; auto.
Qed.

Lemma dict_get_set_other (k k0 : K) (v : V) (d : list (K * V)) :
  k0 <> k -> Dict.get eqb k0 (Dict.set eqb k v d) = Dict.get eqb k0 d.
Proof.
  intros Hne. induction d as [|[k' v'] r IH]; simpl.
  - now rewrite (eqb_neq' _ _ Hne).
  - destruct (eqb k k') eqn:E; simpl.
    + apply eqb_eq in E. subst k'. now rewrite (eqb_neq' _ _ Hne).
    + now rewrite IH.
Qed.

Lemma dict_get_none (k : K) (d : list (K * V)) :
  Dict.get eqb k d = None <-> ~ In k (Dict.keys d).
Proof.
  induction d as [|[k' v'] r IH]; simpl.
  - tauto.
  - destruct (eqb k k') eqn:E.
    + apply eqb_eq in E. subst.
      split; [discriminate | intros H; exfalso; auto].
    + rewrite IH. split.
      * intros H [H'|H']; [subst; now rewrite eqb_refl' in E | auto].
      * intros H H'. apply H. now right.
Qed.

Lemma dict_keys_set (k : K) (v : V) (d : list (K * V)) :
  Dict.keys (Dict.set eqb k v d)
  = if Dict.mem eqb k d then Dict.keys d else (Dict.keys d ++ [k])%list.
Proof.
  unfold Dict.mem.
  induction d as [|[k' v'] r IH]; simpl; [reflexivity|].
  destruct (eqb k k') eqn:E; simpl; [reflexivity|].
  rewrite IH. now destruct (Dict.get eqb k r).
Qed.

Lemma dict_nodup_set (k : K) (v : V) (d : list (K * V)) :
  NoDup (Dict.keys d) -> NoDup (Dict.keys (Dict.set eqb k v d)).
Proof.
  intros H. rewrite dict_keys_set. unfold Dict.mem.
  destruct (Dict.get eqb k d) eqn:E; [exact H|].
  apply dict_get_none in E.
  apply NoDup_rev in H. rewrite <- (rev_involutive (_ ++ _)%list).
  apply NoDup_rev. rewrite rev_app_distr. simpl. constructor; [|exact H].
  now rewrite <- in_rev.
Qed.





End DictFacts.

Lemma Py_eqb_iff (a b : value) : Py.eqb a b = true <-> a = b.
Proof. split; [apply Py_eqb_eq | intros ->; apply Py_eqb_refl]. Qed.

Lemma get_set_same (k : value) (e : employee) (employees : registry) :
  Dict.get Py.eqb k (Dict.set Py.eqb k e employees) = Some e.
Proof. apply dict_get_set_same, Py_eqb_iff. Qed.

Lemma get_set_other (k k0 : value) (e : employee) (employees : registry) :
  k0 <> k ->
  Dict.get Py.eqb k0 (Dict.set Py.eqb k e employees)
  = Dict.get Py.eqb k0 employees.
Proof. apply (dict_get_set_other _ Py_eqb_iff). Qed.

Lemma keys_set (k : value) (e : employee) (employees : registry) :
  Dict.keys (Dict.set Py.eqb k e employees)
  = if Dict.mem Py.eqb k employees then Dict.keys employees
    else (Dict.keys employees ++ [k])%list.
Proof. apply dict_keys_set. Qed.








Lemma get_in (k : value) (e : employee) (employees : registry) :
  Dict.get Py.eqb k employees = Some e -> In e (Dict.values employees).
Proof.
  induction employees as [|[k' e'] r IH]; simpl; [discriminate|].
  destruct (Py.eqb k k'); [intros H; inversion H; now left | right; auto].
Qed.

(** X2.  [add_employee] on an object without an [emp_id] raises [KeyError]
    and leaves the registry alone.  On an object with an id it returns, the
    id then looks up that object, every other id looks up what it did, the
    listing shows the object, and the id is appended to the keys if it is
    new and keeps its place if it is not. *)
Theorem add_employee_then_lookup (employee_obj : employee)
    (employees : registry) :
  (getattr "emp_id" (data employee_obj) = None ->
   HRSystem.add_employee employee_obj employees = (employees, Raise KeyError))
  /\ (forall emp_id,
        getattr "emp_id" (data employee_obj) = Some emp_id ->
        is_id emp_id = true ->
        let employees' := fst (HRSystem.add_employee employee_obj employees) in
        snd (HRSystem.add_employee employee_obj employees) = Ok tt
        /\ HRSystem.get_employee emp_id employees' = Some employee_obj
        /\ (forall k, k <> emp_id ->
              HRSystem.get_employee k employees'
              = HRSystem.get_employee k employees)
        /\ In (Employee.to_dict employee_obj)
             (HRSystem.list_employees employees')
        /\ Dict.keys employees'
           = if Dict.mem Py.eqb emp_id employees then Dict.keys employees
             else (Dict.keys employees ++ [emp_id])%list).
Proof.
  unfold HRSystem.add_employee, getitem. split.
  - intros ->. reflexivity.
  - intros emp_id -> _. simpl. unfold HRSystem.get_employee.
    split; [reflexivity|]. split; [apply get_set_same|].
    split; [intros k Hk; now apply get_set_other|].
    split; [|apply keys_set].
    unfold HRSystem.list_employees. apply in_map.
    eapply get_in. apply get_set_same.
Qed.

Lemma add_employee_then_lookup_witness :
  HRSystem.add_employee nameless demo_registry
  = (demo_registry, Raise KeyError)
  /\ HRSystem.get_employee (VStr "PT101")
       (fst (HRSystem.add_employee bikash [])) = Some bikash
  /\ Dict.keys (fst (HRSystem.add_employee bikash demo_registry))
     = Dict.keys demo_registry.
Proof.
  split; [|split].
  - exact (proj1 (add_employee_then_lookup nameless demo_registry) eq_refl).
  - exact (proj1 (proj2 (proj2 (add_employee_then_lookup bikash [])
                             (VStr "PT101") eq_refl eq_refl))).
  - exact (proj2 (proj2 (proj2 (proj2
             (proj2 (add_employee_then_lookup bikash demo_registry)
                (VStr "PT101") eq_refl eq_refl))))).
Defined.



Lemma keys_set_prefix (k : value) (e : employee) (employees : registry) :
  exists new,
    Dict.keys (Dict.set Py.eqb k e employees) = (Dict.keys employees ++ new)%list.
Proof.
  rewrite keys_set. destruct (Dict.mem Py.eqb k employees).
  - exists []. now rewrite app_nil_r.
  - now exists [k].
Qed.

Lemma load_rows_keys_prefix (fieldnames : list string)
    (rows : list (list string)) (employees : registry) :
  exists new,
    Dict.keys (fst (HRSystem.load_rows fieldnames rows employees))
    = (Dict.keys employees ++ new)%list.
Proof.
  revert employees.
  induction rows as [|cells rest IH]; intros employees; simpl.
  - exists []. now rewrite app_nil_r.
  - destruct cells as [|c cs]; [apply IH|].
    destruct (HRSystem.load_row _) as [[k e]|x]; simpl.
    + destruct (IH (Dict.set Py.eqb k e employees)) as [n2 H2].
      destruct (keys_set_prefix k e employees) as [n1 H1].
      exists (n1 ++ n2)%list. now rewrite H2, H1, app_assoc.
    + exists []. now rewrite app_nil_r.
Qed.

(** X4.  [_load_from_file] never removes or reorders the ids that are in the
    registry: either the keys afterwards are the keys before followed by
    new ones, or the read failed and the registry is empty. *)
Theorem load_keeps_existing_ids (fs : disk) (employees : registry) :
  let employees' := fst (HRSystem._load_from_file fs employees) in
  (exists new, Dict.keys employees' = (Dict.keys employees ++ new)%list)
  \/ (employees' = []
      /\ exists f partial e,
           content fs = Some f
           /\ HRSystem.read_file f employees = (partial, Raise e)).
Proof.
  unfold HRSystem._load_from_file.
  destruct (content fs) as [f|]; simpl.
  - destruct (HRSystem.read_file f employees) as [reg' [u|x]] eqn:E; simpl.
    + left. revert E. unfold HRSystem.read_file.
      destruct (map _ (records f)) as [|fieldnames rows].
      * intros E. inversion E; subst. exists []. now rewrite app_nil_r.
      * pose proof (load_rows_keys_prefix fieldnames rows employees) as Hp.
        destruct (HRSystem.load_rows fieldnames rows employees) as [r [u'|x]];
          intros E; inversion E; subst. exact Hp.
    + right. split; [reflexivity|]. eauto.
  - left. exists []. now rewrite app_nil_r.
Qed.

Lemma load_rows_app (fieldnames : list string) (a b : list (list string))
    (employees : registry) :
  HRSystem.load_rows fieldnames (a ++ b) employees
  = match HRSystem.load_rows fieldnames a employees with
    | (employees', Ok _) => HRSystem.load_rows fieldnames b employees'
    | (employees', Raise e) => (employees', Raise e)
    end.
Proof.
  revert employees. induction a as [|cells a IH]; intros employees; simpl.
  - reflexivity.
  - destruct cells as [|c cs]; [apply IH|].
    destruct (HRSystem.load_row _) as [[k e]|x]; [apply IH | reflexivity].
Qed.

(** X5.  Rows are loaded in order and the last row of an id wins: when the
    rows before it load into [employees'], a further row that loads as the
    object [e] under the id [k] stores [e] under [k], over whatever an
    earlier row or the registry had there. *)
Theorem last_row_of_an_id_wins (fieldnames : list string)
    (rows : list (list string)) (c : string) (cs : list string)
    (employees employees' : registry) (k : value) (e : employee) :
  HRSystem.load_rows fieldnames rows employees = (employees', Ok tt) ->
  HRSystem.load_row (Csv.read_row fieldnames (c :: cs) []) = Ok (k, e) ->
  HRSystem.load_rows fieldnames (rows ++ [c :: cs]) employees
  = (Dict.set Py.eqb k e employees', Ok tt)
  /\ HRSystem.get_employee k
       (fst (HRSystem.load_rows fieldnames (rows ++ [c :: cs]) employees))
     = Some e
  /\ forall k', k' <> k ->
       HRSystem.get_employee k'
         (fst (HRSystem.load_rows fieldnames (rows ++ [c :: cs]) employees))
       = HRSystem.get_employee k' employees'.
Proof.
  intros H1 H2. rewrite load_rows_app, H1. simpl. rewrite H2. simpl.
  unfold HRSystem.get_employee.
  split; [reflexivity|]. split; [apply get_set_same|].
  intros k' Hk. now apply get_set_other.
Qed.

Lemma last_row_of_an_id_wins_witness :
  exists e,
    HRSystem.get_employee (VStr "A")
      (fst (HRSystem.load_rows ["emp_id"; "role"]
              ([["A"; "Manager"]] ++ [["A"; "Intern"]]) []))
    = Some e
    /\ emp_class e = CIntern.
Proof.
  eexists. split; [|shelve].
  refine (proj1 (proj2 (last_row_of_an_id_wins ["emp_id"; "role"]
                         [["A"; "Manager"]] "A" ["Intern"] [] _ (VStr "A") _
                         _ _))).
  - vm_compute. reflexivity.
  - vm_compute. reflexivity.
  Unshelve. reflexivity.
Defined.

(** ** What the loader makes of a row *)

Lemma update_field_common (emp : employee) (kv : string * option string)
    (k : string) :
  HRSystem.is_common k = true ->
  getattr k (data (HRSystem.update_field emp kv)) = getattr k (data emp).
Proof.
  intros Hk. destruct kv as [k' v]. unfold HRSystem.update_field.
  destruct (HRSystem.is_common k') eqn:Hc; [reflexivity|].
  assert (Hne : k <> k') by (intros <-; congruence).
  destruct v as [s|]; [|reflexivity].
  destruct (String.eqb s ""); [reflexivity|].
  match goal with
  | |- context [match ?n with Ok _ => _ | Raise _ => _ end] => destruct n
  end; simpl; now apply getattr_setattr_ne.
Qed.

Lemma fold_update_field_common (r : HRSystem.row) (emp : employee)
    (k : string) :
  HRSystem.is_common k = true ->
  getattr k (data (fold_left HRSystem.update_field r emp)) = getattr k (data emp).
Proof.
  intros Hk. revert emp.
  induction r as [|kv r IH]; intros emp; simpl; [reflexivity|].
  rewrite IH. now apply update_field_common.
Qed.

Lemma cell_is_eq (c : option string) (s : string) :
  HRSystem.cell_is c s = true -> c = Some s.
Proof.
  destruct c as [t|]; simpl; [|discriminate].
  intros H. apply String.eqb_eq in H. now subst.
Qed.

(** The role the loader reads from a row: [row.get('role', '')]. *)
Lemma instantiate_common (r : HRSystem.row) (e : employee) :
  HRSystem.instantiate r = Ok e ->
  getattr "name" (data e) = Some (HRSystem.cell_value (HRSystem.row_get "name" r))
  /\ getattr "join_date" (data e)
     = Some (HRSystem.cell_value (HRSystem.row_get "join_date" r))
  /\ getattr "role" (data e)
     = Some (HRSystem.cell_value
               match Dict.get String.eqb "role" r with
               | Some c => c
               | None => Some ""
               end).
Proof.
  unfold HRSystem.instantiate.
  destruct (HRSystem.cell_is _ "Full-Time") eqn:R1;
    [apply cell_is_eq in R1; rewrite R1|
     destruct (HRSystem.cell_is _ "Part-Time") eqn:R2;
     [apply cell_is_eq in R2; rewrite R2|
      destruct (HRSystem.cell_is _ "Intern") eqn:R3;
      [apply cell_is_eq in R3; rewrite R3|]]];
    repeat match goal with
           | |- context [if ?c then _ else _] => destruct c
           | |- context [match HRSystem.row_get "monthly_hours" r with _ => _ end] =>
               destruct (HRSystem.row_get "monthly_hours" r)
           end;
    intros H;
    repeat match goal with
           | H : bind _ _ = Ok _ |- _ => apply bind_ok in H as (? & ? & H)
           end;
    inversion H; subst; repeat split; reflexivity.
Qed.

(** X6.  A row that loads keeps its four common cells as they are: the key
    and the [emp_id], [name], [join_date] and [role] of the object are the
    cells of those columns ([None] for a missing cell, the empty string for
    a missing role column), whatever the other columns hold; and the class
    follows the role: exactly "Full-Time", "Part-Time" and "Intern" give the
    three subclasses, anything else the base class. *)
Theorem loaded_row_keeps_common_cells (r : HRSystem.row) (k : value)
    (e : employee) :
  HRSystem.load_row r = Ok (k, e) ->
  let role := match Dict.get String.eqb "role" r with
              | Some c => c
              | None => Some ""
              end in
  k = HRSystem.cell_value (HRSystem.row_get "emp_id" r)
  /\ getattr "emp_id" (data e) = Some k
  /\ getattr "name" (data e) = Some (HRSystem.cell_value (HRSystem.row_get "name" r))
  /\ getattr "join_date" (data e)
     = Some (HRSystem.cell_value (HRSystem.row_get "join_date" r))
  /\ getattr "role" (data e) = Some (HRSystem.cell_value role)
  /\ emp_class e
     = if HRSystem.cell_is role "Full-Time" then CFullTime
       else if HRSystem.cell_is role "Part-Time" then CPartTime
       else if HRSystem.cell_is role "Intern" then CIntern
       else CEmployee.
Proof.
  intros H role. pose proof (load_row_id _ _ _ H) as Hid.
  pose proof (load_row_class _ _ _ H) as Hc.
  unfold HRSystem.load_row in H. apply bind_ok in H as (emp & Hi & H).
  inversion H; subst.
  destruct (instantiate_common _ _ Hi) as (Hn & Hj & Hr).
  rewrite !fold_update_field_common by reflexivity.
  repeat split; auto; [now apply instantiate_id|].
  rewrite Hc. subst role.
  destruct (Dict.get String.eqb "role" r) as [[s|]|]; reflexivity.
Qed.

Lemma loaded_row_keeps_common_cells_witness :
  exists e,
    HRSystem.load_row full_time_row = Ok (VStr "F1", e)
    /\ getattr "name" (data e) = Some (VStr "Al")
    /\ getattr "join_date" (data e) = Some VNone
    /\ getattr "role" (data e) = Some (VStr "Full-Time")
    /\ emp_class e = CFullTime.
Proof.
  eexists. split; [vm_compute; reflexivity|].
  match goal with
  | |- getattr _ (data ?e) = _ /\ _ =>
      destruct (loaded_row_keeps_common_cells full_time_row (VStr "F1") e)
        as (_ & _ & Hn & Hj & Hr & Hc); [vm_compute; reflexivity|]
  end.
  repeat split; assumption.
Defined.

Lemma py_float_raises (s : string) (x : exn) :
  Text.py_float s = Raise x -> x = ValueError.
Proof.
  unfold Text.py_float.
  destruct (Text.sign (Text.strip s)) as [neg u].
  destruct (_ || _); [discriminate|].
  destruct (String.eqb _ "nan"); [discriminate|].
  destruct (Text.number u) as [[[m fn] rest]|]; [|intros H; now inversion H].
  destruct (Text.exponent rest) as [[e [|c t]]|]; intros H; now inversion H.
Qed.

Lemma float_or_zero_raises (k : string) (r : HRSystem.row) (x : exn) :
  HRSystem.float_or_zero k r = Raise x ->
  x = ValueError
  /\ exists s, HRSystem.row_get k r = Some s
               /\ s <> ""
               /\ Text.py_float s = Raise ValueError.
Proof.
  unfold HRSystem.float_or_zero.
  destruct (HRSystem.row_get k r) as [s|]; [|discriminate].
  destruct (String.eqb s "") eqn:E; [discriminate|].
  apply String.eqb_neq in E.
  destruct (Text.py_float s) as [f|y] eqn:P; simpl; [discriminate|].
  intros H. inversion H; subst.
  pose proof (py_float_raises _ _ P). subst. eauto.
Qed.

Lemma load_row_failure (r : HRSystem.row) (x : exn) :
  HRSystem.load_row r = Raise x ->
  let role := match Dict.get String.eqb "role" r with
              | Some c => c
              | None => Some ""
              end in
  x = ValueError
  /\ exists column s,
       HRSystem.row_get column r = Some s
       /\ s <> ""
       /\ Text.py_float s = Raise ValueError
       /\ ((role = Some "Full-Time" /\ column = "monthly_salary")
           \/ (role = Some "Part-Time"
               /\ (column = "hourly_rate" \/ column = "monthly_hours"))
           \/ (role = Some "Intern" /\ column = "stipend")).
Proof.
  intros H role. unfold HRSystem.load_row in H.
  destruct (HRSystem.instantiate r) as [emp|y] eqn:I; [discriminate|].
  simpl in H. inversion H; subst y. clear H. revert I.
  unfold HRSystem.instantiate. fold role.
  destruct (HRSystem.cell_is role "Full-Time") eqn:R1.
  { apply cell_is_eq in R1.
    destruct (HRSystem.float_or_zero "monthly_salary" r) eqn:F;
      [discriminate|]. simpl. intros H. inversion H; subst.
    destruct (float_or_zero_raises _ _ _ F) as (-> & s & ? & ? & ?).
    split; [reflexivity|]. exists "monthly_salary", s. auto 10. }
  destruct (HRSystem.cell_is role "Part-Time") eqn:R2.
  { apply cell_is_eq in R2.
    destruct (HRSystem.float_or_zero "hourly_rate" r) eqn:F; simpl.
    - destruct (HRSystem.row_get "monthly_hours" r) as [mh|] eqn:M;
        [|discriminate].
      destruct (String.eqb mh "") eqn:E; [discriminate|].
      apply String.eqb_neq in E.
      destruct (Text.py_float mh) eqn:P; [discriminate|]. simpl.
      intros H. inversion H; subst.
      pose proof (py_float_raises _ _ P). subst.
      split; [reflexivity|]. exists "monthly_hours", mh. auto 10.
    - intros H. inversion H; subst.
      destruct (float_or_zero_raises _ _ _ F) as (-> & s & ? & ? & ?).
      split; [reflexivity|]. exists "hourly_rate", s. auto 10. }
  destruct (HRSystem.cell_is role "Intern") eqn:R3; [|discriminate].
  apply cell_is_eq in R3.
  destruct (HRSystem.float_or_zero "stipend" r) eqn:F; simpl.
  - destruct (_ || _); discriminate.
  - intros H. inversion H; subst.
    destruct (float_or_zero_raises _ _ _ F) as (-> & s & ? & ? & ?).
    split; [reflexivity|]. exists "stipend", s. auto 10.
Qed.

(** X7.  The only exception a row can raise is [ValueError], and only
    through a typed column: the salary of a "Full-Time" row, the rate or
    the hours of a "Part-Time" row, the stipend of an "Intern" row, holding
    text that [float()] rejects.  A row of any other role always loads. *)
Theorem row_fails_only_on_a_typed_column (r : HRSystem.row) (x : exn) :
  HRSystem.load_row r = Raise x ->
  let role := match Dict.get String.eqb "role" r with
              | Some c => c
              | None => Some ""
              end in
  x = ValueError
  /\ exists column s,
       HRSystem.row_get column r = Some s
       /\ s <> ""
       /\ Text.py_float s = Raise ValueError
       /\ ((role = Some "Full-Time" /\ column = "monthly_salary")
           \/ (role = Some "Part-Time"
               /\ (column = "hourly_rate" \/ column = "monthly_hours"))
           \/ (role = Some "Intern" /\ column = "stipend")).
Proof. exact (load_row_failure r x). Qed.

Lemma row_fails_only_on_a_typed_column_witness :
  HRSystem.load_row bad_intern_row = Raise ValueError
  /\ exists column s,
       HRSystem.row_get column bad_intern_row = Some s
       /\ Text.py_float s = Raise ValueError.
Proof.
  assert (H : HRSystem.load_row bad_intern_row = Raise ValueError)
    by (vm_compute; reflexivity).
  split; [exact H|].
  destruct (row_fails_only_on_a_typed_column bad_intern_row ValueError H)
    as (_ & column & s & Hg & _ & Hf & _).
  exists column, s. split; assumption.
Defined.

(** ** The header of a saved file *)

Lemma ascii_compare_lt_trans (a b c : ascii) :
  Ascii.compare a b = Lt -> Ascii.compare b c = Lt -> Ascii.compare a c = Lt.
Proof.
  unfold Ascii.compare. rewrite !N.compare_lt_iff. apply N.lt_trans.
Qed.

Lemma compare_lt_trans (s1 s2 s3 : string) :
  String.compare s1 s2 = Lt -> String.compare s2 s3 = Lt ->
  String.compare s1 s3 = Lt.
Proof.
  revert s2 s3.
  induction s1 as [|c1 s1 IH]; intros [|c2 s2] [|c3 s3]; simpl;
    try discriminate; try reflexivity.
  destruct (Ascii.compare c1 c2) eqn:E12; try discriminate;
    destruct (Ascii.compare c2 c3) eqn:E23; try discriminate.
  - apply Ascii.compare_eq_iff in E12, E23. subst.
    replace (Ascii.compare c3 c3) with Eq; [apply IH|].
    unfold Ascii.compare. now rewrite N.compare_refl.
  - apply Ascii.compare_eq_iff in E12. subst. now rewrite E23.
  - apply Ascii.compare_eq_iff in E23. subst. now rewrite E12.
  - now rewrite (ascii_compare_lt_trans _ _ _ E12 E23).
Qed.

Lemma compare_refl (s : string) : String.compare s s = Eq.
Proof.
  induction s as [|c s IH]; simpl; [reflexivity|].
  unfold Ascii.compare. now rewrite N.compare_refl.
Qed.

Lemma compare_gt_lt (a b : string) :
  String.compare a b = Gt -> String.compare b a = Lt.
Proof. intros H. rewrite String.compare_antisym, H. reflexivity. Qed.

Lemma in_insert_key (k x : string) (l : list string) :
  In x (HRSystem.insert_key k l) <-> x = k \/ In x l.
Proof.
  induction l as [|h t IH]; simpl.
  - intuition.
  - destruct (String.compare k h) eqn:E; simpl.
    + apply String.compare_eq_iff in E. subst. intuition.
    + intuition.
    + rewrite IH. intuition.
Qed.

Lemma ascending_insert_key (k : string) (l : list string) :
  ascending l -> ascending (HRSystem.insert_key k l).
Proof.
  induction l as [|h t IH]; simpl; [auto|].
  intros H. destruct (String.compare k h) eqn:E.
  - exact H.
  - simpl. auto.
  - assert (Ht : ascending t) by (destruct t; [exact I | apply H]).
    specialize (IH Ht). apply compare_gt_lt in E.
    destruct t as [|h' t']; simpl in *; [auto|].
    revert IH. destruct (String.compare k h'); simpl; tauto.
Qed.

Lemma fold_insert_key (ks l : list string) :
  ascending l ->
  ascending (fold_left (fun a k => HRSystem.insert_key k a) ks l)
  /\ forall x, In x (fold_left (fun a k => HRSystem.insert_key k a) ks l)
               <-> In x ks \/ In x l.
Proof.
  revert l. induction ks as [|k ks IH]; intros l H; simpl.
  - split; [exact H | intuition].
  - destruct (IH _ (ascending_insert_key k l H)) as [A M].
    split; [exact A|]. intros x. rewrite M, in_insert_key. intuition.
Qed.

Lemma sorted_keys_from (rows : list attrs) (l : list string) :
  ascending l ->
  let out := fold_left
               (fun acc d =>
                  fold_left (fun a k => HRSystem.insert_key k a)
                    (Dict.keys d) acc)
               rows l in
  ascending out
  /\ forall x, In x out
               <-> (exists d, In d rows /\ In x (Dict.keys d)) \/ In x l.
Proof.
  revert l. induction rows as [|d rows IH]; intros l H; simpl.
  - split; [exact H|]. intros x. split; [auto | intros [(? & [] & _)|?]; auto].
  - destruct (fold_insert_key (Dict.keys d) l H) as [A M].
    destruct (IH _ A) as [A' M']. split; [exact A'|].
    intros x. rewrite M', M. split.
    + intros [(d' & Hd & Hx)|[Hx|Hx]]; eauto.
    + intros [(d' & [<-|Hd] & Hx)|Hx]; eauto.
Qed.

Lemma ascending_head_lt (a : string) (l : list string) :
  ascending (a :: l) -> forall x, In x l -> String.compare a x = Lt.
Proof.
  revert a. induction l as [|b l IH]; intros a H x; simpl; [tauto|].
  destruct H as [Hab Hl]. intros [<-|Hx]; [exact Hab|].
  eapply compare_lt_trans; [exact Hab | now apply IH].
Qed.

Lemma ascending_tail (a : string) (l : list string) :
  ascending (a :: l) -> ascending l.
Proof. destruct l; [intros; exact I | intros [_ H]; exact H]. Qed.

Lemma ascending_nodup (l : list string) : ascending l -> NoDup l.
Proof.
  induction l as [|a l IH]; intros H; constructor.
  - intros Hin. pose proof (ascending_head_lt a l H a Hin) as E.
    rewrite compare_refl in E. discriminate.
  - apply IH. eapply ascending_tail; eauto.
Qed.

(** Two ascending lists with the same members are the same list. *)
Lemma ascending_unique (l1 l2 : list string) :
  ascending l1 -> ascending l2 ->
  (forall x, In x l1 <-> In x l2) -> l1 = l2.
Proof.
  revert l2. induction l1 as [|a l1 IH]; intros [|b l2] H1 H2 M.
  - reflexivity.
  - exfalso. apply (proj2 (M b)). now left.
  - exfalso. apply (proj1 (M a)). now left.
  - assert (a = b).
    { destruct (proj1 (M a) (or_introl eq_refl)) as [E|Ha]; [auto|].
      destruct (proj2 (M b) (or_introl eq_refl)) as [E|Hb]; [auto|].
      pose proof (ascending_head_lt b l2 H2 a Ha) as L1.
      pose proof (ascending_head_lt a l1 H1 b Hb) as L2.
      pose proof (compare_lt_trans _ _ _ L1 L2) as L.
      rewrite compare_refl in L. discriminate. }
    subst b. f_equal. apply IH.
    + eapply ascending_tail; eauto.
    + eapply ascending_tail; eauto.
    + intros x. split; intros Hx.
      * destruct (proj1 (M x) (or_intror Hx)) as [<-|?]; [|assumption].
        pose proof (ascending_head_lt a l1 H1 a Hx) as L.
        rewrite compare_refl in L. discriminate.
      * destruct (proj2 (M x) (or_intror Hx)) as [<-|?]; [|assumption].
        pose proof (ascending_head_lt a l2 H2 a Hx) as L.
        rewrite compare_refl in L. discriminate.
Qed.

Lemma in_values (e : employee) (employees : registry) :
  In e (Dict.values employees) <-> exists k, In (k, e) employees.
Proof.
  unfold Dict.values. rewrite in_map_iff. split.
  - intros [[k e'] [<- H]]. now exists k.
  - intros [k H]. now exists (k, e).
Qed.

(** X8.  A registry that is not empty is written, when the path can be
    written, as a header and one row per employee, in the order of the
    registry.  The header holds every key of every employee's data and
    nothing else, in strictly ascending order, so no column occurs twice;
    every row has one cell per column; and the saved file raises no error
    of its own when read. *)
Theorem saved_file_shape (kv : value * employee) (rest : registry)
    (fs : disk) :
  writable fs = true ->
  exists header rows,
    HRSystem.save_to_file (kv :: rest) fs
    = ({| content := Some {| records := header :: rows; failure := None |};
          writable := true |}, Ok tt)
    /\ ascending header
    /\ NoDup header
    /\ (forall column,
          In column header
          <-> exists emp_id e, In (emp_id, e) (kv :: rest)
                               /\ In column (Dict.keys (data e)))
    /\ rows = map (fun e => Csv.row_cells header (data e))
                (Dict.values (kv :: rest))
    /\ List.length rows = List.length (kv :: rest)
    /\ forall row, In row rows -> List.length row = List.length header.
Proof.
  intros Hw. unfold HRSystem.save_to_file. rewrite Hw.
  set (dicts := map Employee.to_dict (Dict.values (kv :: rest))).
  destruct (sorted_keys_from dicts [] I) as [A M].
  fold (HRSystem.sorted_keys dicts) in A, M.
  exists (HRSystem.sorted_keys dicts),
         (map (Csv.row_cells (HRSystem.sorted_keys dicts)) dicts).
  split; [reflexivity|]. split; [exact A|].
  split; [now apply ascending_nodup|]. split; [|split; [|split]].
  - intros column. rewrite M. subst dicts. split.
    + intros [(d & Hd & Hc)|[]]. apply in_map_iff in Hd as (e & <- & He).
      apply in_values in He as [k Hk]. eauto.
    + intros (k & e & Hk & Hc). left. exists (data e). split; [|exact Hc].
      apply in_map_iff. exists e. split; [reflexivity|].
      apply in_values. eauto.
  - subst dicts. now rewrite map_map.
  - subst dicts. unfold Dict.values. now rewrite !length_map.
  - intros row Hr. apply in_map_iff in Hr as (d & <- & _).
    unfold Csv.row_cells. now rewrite length_map.
Qed.

Lemma saved_file_shape_witness :
  exists header rows,
    HRSystem.save_to_file demo_registry empty_disk
    = ({| content := Some {| records := header :: rows; failure := None |};
          writable := true |}, Ok tt)
    /\ NoDup header
    /\ List.length rows = 3%nat.
Proof.
  destruct (saved_file_shape
              (VStr "FT001",
               FullTime.init (VStr "FT001") (VStr "Alice kumar")
                 (VStr "2018-06-15") (VInt 80000) FullTime.default_role)
              [(VStr "PT101", bikash); (VStr "IN900", charu (VInt 15000) true)]
              empty_disk eq_refl)
    as (header & rows & Hs & _ & Hn & _ & _ & Hl & _).
  exists header, rows. repeat split; assumption.
Defined.

(** X9.  The header of the saved file depends only on which keys the
    employees' data hold, not on the order of the employees or of the keys
    in their dictionaries. *)
Theorem header_is_order_independent (rows1 rows2 : list attrs) :
  (forall column,
     (exists d, In d rows1 /\ In column (Dict.keys d))
     <-> (exists d, In d rows2 /\ In column (Dict.keys d))) ->
  HRSystem.sorted_keys rows1 = HRSystem.sorted_keys rows2.
Proof.
  intros H.
  destruct (sorted_keys_from rows1 [] I) as [A1 M1].
  destruct (sorted_keys_from rows2 [] I) as [A2 M2].
  apply ascending_unique; [exact A1 | exact A2 |].
  intros x. unfold HRSystem.sorted_keys.
  rewrite (M1 x), (M2 x), (H x). reflexivity.
Qed.

Lemma header_is_order_independent_witness :
  HRSystem.sorted_keys [data bikash; data (charu (VInt 15000) true)]
  = HRSystem.sorted_keys [data (charu (VInt 15000) true); data bikash].
Proof.
  apply header_is_order_independent.
  intros column; split; intros (d & [<-|[<-|[]]] & H);
    eexists; (split; [|exact H]); simpl; auto.
Defined.

(** ** Years of service *)

(** X10.  When the join date is a calendar date, given as a date or as text
    that reads as one, [years_of_service] returns the number of completed
    years: the join date moved that many years on is not after today, and
    moved one year more it is after today. *)
Theorem years_of_service_counts_completed_years (self : employee)
    (today : Date.t) (v : value) (jd : Date.t) :
  getattr "join_date" (data self) = Some v ->
  Employee.join_date v = Ok jd ->
  exists years,
    Employee.years_of_service self today = Ok years
    /\ Py.date_compare (Date.year jd + years, Date.month jd, Date.day jd)
         (Date.year today, Date.month today, Date.day today) <> Gt
    /\ Py.date_compare (Date.year today, Date.month today, Date.day today)
         (Date.year jd + years + 1, Date.month jd, Date.day jd) = Lt.
Proof.
  intros Hv Hj. unfold Employee.years_of_service, getitem.
  rewrite Hv. simpl. rewrite Hj. simpl. eexists. split; [reflexivity|].
  unfold Py.date_compare, Employee.before.
  destruct today as [ty tm td], jd as [jy jm jd]. simpl.
  destruct (Z.ltb_spec tm jm), (Z.eqb_spec tm jm), (Z.ltb_spec td jd); simpl;
    try lia;
    repeat match goal with
           | |- context [?a ?= ?b] => destruct (Z.compare_spec a b); try lia
           end;
    split; congruence.
Qed.

Lemma years_of_service_counts_completed_years_witness :
  exists years,
    Employee.years_of_service (leap_employee (VStr "2020-02-29"))
      (Date.mk 2025 2 28) = Ok years
    /\ Py.date_compare (2020 + years, 2, 29) (2025, 2, 28) <> Gt
    /\ Py.date_compare (2025, 2, 28) (2020 + years + 1, 2, 29) = Lt.
Proof.
  exact (years_of_service_counts_completed_years
           (leap_employee (VStr "2020-02-29")) (Date.mk 2025 2 28)
           (VStr "2020-02-29") (Date.mk 2020 2 29) eq_refl eq_refl).
Defined.

(** X11.  The years of service never go down as the days pass: for one
    employee, a later day gives at least as many years. *)
Theorem years_of_service_nondecreasing (self : employee)
    (day1 day2 : Date.t) (years1 years2 : Z) :
  Py.date_compare (Date.year day1, Date.month day1, Date.day day1)
    (Date.year day2, Date.month day2, Date.day day2) <> Gt ->
  Employee.years_of_service self day1 = Ok years1 ->
  Employee.years_of_service self day2 = Ok years2 ->
  years1 <= years2.
Proof.
  unfold Employee.years_of_service. intros Hle H1 H2.
  destruct (getitem "join_date" (data self)) as [v|]; [|discriminate].
  simpl in H1, H2.
  destruct (Employee.join_date v) as [jd|]; [|discriminate].
  simpl in H1, H2. inversion H1; inversion H2; subst. clear H1 H2.
  revert Hle. unfold Py.date_compare, Employee.before.
  destruct day1 as [y1 m1 d1], day2 as [y2 m2 d2], jd as [jy jm jd]. simpl.
  destruct (Z.compare_spec y1 y2); [| |congruence];
    destruct (Z.compare_spec m1 m2); try (destruct (Z.compare_spec d1 d2));
    intros Hle; try congruence;
    destruct (Z.ltb_spec m1 jm), (Z.eqb_spec m1 jm), (Z.ltb_spec d1 jd),
      (Z.ltb_spec m2 jm), (Z.eqb_spec m2 jm), (Z.ltb_spec d2 jd);
    simpl; lia.
Qed.

Lemma years_of_service_nondecreasing_witness : 6 <= 7.
Proof.
  apply (years_of_service_nondecreasing (leap_employee (VStr "2018-06-15")) (Date.mk 2025 6 14)
           (Date.mk 2025 6 15)).
  - discriminate.
  - reflexivity.
  - reflexivity.
Defined.

(** ** Part-time pay, call after call *)

Lemma setattr_setattr (k : string) (v1 v2 : value) (d : attrs) :
  setattr k v2 (setattr k v1 d) = setattr k v2 d.
Proof.
  unfold setattr. induction d as [|[k' v'] d IH]; simpl.
  - now rewrite String.eqb_refl.
  - destruct (String.eqb k k') eqn:E; simpl; rewrite E; [reflexivity|].
    now rewrite IH.
Qed.

Lemma pay_and_bonus_ignores_hours (self : employee) (h : value)
    (hours_worked : value) (apply_bonus : bool) :
  PartTime.pay_and_bonus
    (with_data self (setattr "monthly_hours" h (data self)))
    hours_worked apply_bonus
  = PartTime.pay_and_bonus self hours_worked apply_bonus.
Proof.
  unfold PartTime.pay_and_bonus, getitem. simpl.
  rewrite getattr_setattr_ne by discriminate. reflexivity.
Qed.

(** X12.  The pay of a part-time employee does not depend on earlier
    calls: after any first call, whether it returned or raised, a second
    call gives the outcome it would have given on the untouched object, and
    if it returns, the object is as if the second call had been the only
    one: [monthly_hours] holds the hours of the last call. *)
Theorem parttime_last_call_wins (self : employee) (hours1 hours2 : value)
    (bonus1 bonus2 : bool) :
  let after1 := fst (PartTime.calculate_salary self hours1 bonus1) in
  snd (PartTime.calculate_salary after1 hours2 bonus2)
  = snd (PartTime.calculate_salary self hours2 bonus2)
  /\ (forall r,
        snd (PartTime.calculate_salary after1 hours2 bonus2) = Ok r ->
        PartTime.calculate_salary after1 hours2 bonus2
        = PartTime.calculate_salary self hours2 bonus2
        /\ getattr "monthly_hours"
             (data (fst (PartTime.calculate_salary after1 hours2 bonus2)))
           = Some hours2).
Proof.
  intros after1.
  assert (E : PartTime.pay_and_bonus after1 hours2 bonus2
              = PartTime.pay_and_bonus self hours2 bonus2).
  { subst after1. unfold PartTime.calculate_salary.
    destruct (PartTime.pay_and_bonus self hours1 bonus1) as [[b a]|x];
      [apply pay_and_bonus_ignores_hours | reflexivity]. }
  assert (D : setattr "monthly_hours" hours2 (data after1)
              = setattr "monthly_hours" hours2 (data self)).
  { subst after1. unfold PartTime.calculate_salary.
    destruct (PartTime.pay_and_bonus self hours1 bonus1) as [[b a]|x];
      [apply setattr_setattr | reflexivity]. }
  assert (C : emp_class after1 = emp_class self).
  { subst after1. unfold PartTime.calculate_salary.
    destruct (PartTime.pay_and_bonus self hours1 bonus1) as [[b a]|x];
      reflexivity. }
  assert (H2 : PartTime.calculate_salary after1 hours2 bonus2
               = match PartTime.pay_and_bonus self hours2 bonus2 with
                 | Ok _ => PartTime.calculate_salary self hours2 bonus2
                 | Raise e => (after1, Raise e)
                 end).
  { clearbody after1. unfold PartTime.calculate_salary. rewrite E.
    destruct (PartTime.pay_and_bonus self hours2 bonus2) as [[b a]|x];
      [|reflexivity].
    unfold with_data. now rewrite D, C. }
  rewrite H2. clear H2. clearbody after1.
  unfold PartTime.calculate_salary.
  destruct (PartTime.pay_and_bonus self hours2 bonus2) as [[b a]|x]; simpl.
  - split; [reflexivity|]. intros r _.
    split; [reflexivity | apply getattr_setattr_eq].
  - split; [reflexivity | discriminate].
Qed.

Lemma parttime_last_call_wins_witness :
  PartTime.calculate_salary
    (fst (PartTime.calculate_salary bikash (VStr "ninety") true))
    (VInt 90) true
  = PartTime.calculate_salary bikash (VInt 90) true
  /\ getattr "monthly_hours"
       (data (fst (PartTime.calculate_salary
                     (fst (PartTime.calculate_salary bikash (VStr "ninety") true))
                     (VInt 90) true)))
     = Some (VInt 90).
Proof.
  eapply (proj2 (parttime_last_call_wins bikash (VStr "ninety") (VInt 90)
                   true true)).
  vm_compute. reflexivity.
Defined.

(** X13.  A part-time record whose [hourly_rate] is text, as the loader
    leaves it for a cell such as "1e+16", cannot be paid: for an integer
    number of hours the call raises [TypeError].  Without a bonus to
    compute, the hours are stored before the error is raised; with the
    bonus due, the error comes first and the object is left as it was. *)
Theorem parttime_text_rate (self : employee) (rate : string) (hours : Z)
    (apply_bonus : bool) (base : value) :
  getattr "hourly_rate" (data self) = Some (VStr rate) ->
  Py.mul (VStr rate) (VInt hours) = Ok base ->
  snd (PartTime.calculate_salary self (VInt hours) apply_bonus)
  = Raise TypeError
  /\ fst (PartTime.calculate_salary self (VInt hours) apply_bonus)
     = if apply_bonus && (80 <=? hours) then self
       else with_data self (setattr "monthly_hours" (VInt hours) (data self)).
Proof.
  intros Hr Hm.
  assert (Hb : exists t, base = VStr t).
  { revert Hm. unfold Py.mul. cbn [Py.as_num]. unfold Py.repeat_str.
    destruct (_ || _); [discriminate|].
    destruct (hours <=? 0); [intros H; inversion H; eauto|].
    destruct (_ <? _); [discriminate|]. intros H; inversion H; eauto. }
  destruct Hb as [t ->].
  unfold PartTime.calculate_salary, PartTime.pay_and_bonus, getitem.
  rewrite Hr. cbn [bind]. rewrite Hm. cbn [bind].
  destruct apply_bonus; cbn [andb].
  - unfold Py.ge. cbn [Py.compare Py.as_num Py.num_compare bind].
    destruct (Z.leb_spec 80 hours) as [H|H].
    + assert (E : (hours ?= 80) = Gt \/ (hours ?= 80) = Eq).
      { destruct (Z.compare_spec hours 80); auto; lia. }
      destruct E as [-> | ->]; simpl; auto.
    + assert (E : (hours ?= 80) = Lt) by (apply Z.compare_lt_iff; lia).
      rewrite E. simpl. auto.
  - simpl. auto.
Qed.

Lemma parttime_text_rate_witness :
  PartTime.calculate_salary text_rate_employee (VInt 2) false
  = (with_data text_rate_employee
       (setattr "monthly_hours" (VInt 2) (data text_rate_employee)),
     Raise TypeError)
  /\ PartTime.calculate_salary text_rate_employee (VInt 90) true
     = (text_rate_employee, Raise TypeError).
Proof.
  destruct (parttime_text_rate text_rate_employee "1e+16" 2 false
              (VStr "1e+161e+16") eq_refl eq_refl) as [H1 H2].
  destruct (parttime_text_rate text_rate_employee "1e+16" 90 true
              _ eq_refl eq_refl) as [H3 H4].
  split.
  - rewrite (surjective_pairing (PartTime.calculate_salary _ _ _)).
    now rewrite H1, H2.
  - rewrite (surjective_pairing (PartTime.calculate_salary _ _ _)).
    now rewrite H3, H4.
Defined.

(** ** Integers as text *)

Lemma digit_cases (d : Z) (P : Z -> Prop) :
  0 <= d <= 9 ->
  P 0 -> P 1 -> P 2 -> P 3 -> P 4 -> P 5 -> P 6 -> P 7 -> P 8 -> P 9 -> P d.
Proof.
  intros H. intros.
  assert (E : d = 0 \/ d = 1 \/ d = 2 \/ d = 3 \/ d = 4 \/ d = 5 \/ d = 6
              \/ d = 7 \/ d = 8 \/ d = 9) by lia.
  repeat (destruct E as [->|E]; [assumption|]). now subst.
Qed.

Lemma digit_of_digit_char (d : Z) :
  0 <= d <= 9 -> Text.digit (Text.digit_char d) = Some d.
Proof. intros H. apply (digit_cases d); auto. Qed.

Lemma decimal_char_facts (c : ascii) :
  is_decimal_char c ->
  Text.is_space c = false
  /\ Ascii.eqb "." c = false
  /\ Ascii.eqb c Csv.cr = false
  /\ c <> "-"%char /\ c <> "+"%char.
Proof.
  intros (d & Hd & ->).
  apply (digit_cases d); auto; repeat split; try reflexivity; discriminate.
Qed.

Lemma every_impl (P Q : ascii -> Prop) (s : string) :
  (forall c, P c -> Q c) -> every P s -> every Q s.
Proof. intros H. induction s; simpl; [auto | intros [? ?]; auto]. Qed.

Lemma digits_of_every (fuel : nat) (n : Z) (acc : string) :
  every is_decimal_char acc ->
  every is_decimal_char (Text.digits_of fuel n acc).
Proof.
  revert n acc. induction fuel as [|f IH]; intros n acc H; simpl; [exact H|].
  assert (Hc : every is_decimal_char
                 (String (Text.digit_char (n mod 10)) acc)).
  { split; [|exact H]. exists (n mod 10).
    split; [|reflexivity]. pose proof (Z.mod_pos_bound n 10). lia. }
  destruct (n <? 10); [exact Hc | now apply IH].
Qed.

Lemma append_assoc (a b c : string) : (a ++ b) ++ c = a ++ (b ++ c).
Proof. induction a as [|x a IH]; simpl; [reflexivity | now rewrite IH]. Qed.

Lemma append_nil_r (a : string) : a ++ "" = a.
Proof. induction a as [|x a IH]; simpl; [reflexivity | now rewrite IH]. Qed.

Lemma digits_of_app (fuel : nat) (n : Z) (acc : string) :
  Text.digits_of fuel n acc = Text.digits_of fuel n "" ++ acc.
Proof.
  revert n acc. induction fuel as [|f IH]; intros n acc; simpl; [reflexivity|].
  destruct (n <? 10); [reflexivity|].
  rewrite (IH _ (String _ acc)), (IH _ (String _ "")).
  now rewrite append_assoc.
Qed.

Lemma digits_from_digit (a c d : Z) (r : string) :
  0 <= d <= 9 ->
  Text.digits_from a c (String (Text.digit_char d) r)
  = Text.digits_from (10 * a + d) (c + 1) r.
Proof. intros H. simpl. now rewrite digit_of_digit_char. Qed.

(** Reading the digits of [n] after a value [a]: the digits are appended to
    those of [a]. *)
Lemma digits_of_step (fuel : nat) (n : Z) (acc : string) :
  Text.digits_of (S fuel) n acc
  = if n <? 10 then String (Text.digit_char (n mod 10)) acc
    else Text.digits_of fuel (n / 10) (String (Text.digit_char (n mod 10)) acc).
Proof. reflexivity. Qed.

Lemma digits_from_digits_of (fuel : nat) (n : Z) (tail : string) (a c : Z) :
  0 <= n < 2 ^ Z.of_nat (S fuel) ->
  exists k,
    0 < k
    /\ Text.digits_from a c (Text.digits_of (S fuel) n "" ++ tail)
       = Text.digits_from (a * 10 ^ k + n) (c + k) tail.
Proof.
  revert n tail a c. induction fuel as [|f IH]; intros n tail a c Hn;
    rewrite digits_of_step;
    assert (Hm : 0 <= n mod 10 <= 9)
      by (pose proof (Z.mod_pos_bound n 10); lia);
    (destruct (Z.ltb_spec n 10) as [Hs|Hs];
     [exists 1; split; [lia|]; cbn [String.append];
      rewrite digits_from_digit by exact Hm;
      rewrite Z.mod_small by lia; f_equal; lia|]).
  - simpl in Hn. lia.
  - rewrite digits_of_app, append_assoc.
    assert (Hq : 0 <= n / 10 < 2 ^ Z.of_nat (S f)).
    { split; [apply Z.div_pos; lia|].
      rewrite (Nat2Z.inj_succ (S f)), Z.pow_succ_r in Hn by lia.
      apply Z.div_lt_upper_bound; lia. }
    destruct (IH (n / 10) (String (Text.digit_char (n mod 10)) "" ++ tail)
                a c Hq) as (k & Hk & E).
    exists (k + 1). split; [lia|]. rewrite E. cbn [String.append].
    rewrite digits_from_digit by exact Hm.
    rewrite Z.pow_add_r, Z.pow_1_r by lia.
    f_equal; [|lia]. pose proof (Z.div_mod n 10). lia.
Qed.

Lemma of_nonneg_fuel (n : Z) :
  0 <= n -> 0 <= n < 2 ^ Z.of_nat (S (Z.to_nat (Z.log2 n))).
Proof.
  intros H. split; [exact H|].
  rewrite Nat2Z.inj_succ, Z2Nat.id by apply Z.log2_nonneg.
  destruct (Z.eq_dec n 0) as [->|Hz]; [reflexivity|].
  apply Z.log2_spec. lia.
Qed.

Lemma of_nonneg_every (n : Z) : every is_decimal_char (Text.of_nonneg n).
Proof. apply digits_of_every. exact I. Qed.

Lemma of_nonneg_head (n : Z) :
  exists c r, Text.of_nonneg n = String c r /\ is_decimal_char c.
Proof.
  pose proof (of_nonneg_every n) as H.
  unfold Text.of_nonneg in *. cbn [Text.digits_of] in *.
  destruct (n <? 10).
  - destruct H as [H _]. eauto.
  - rewrite digits_of_app in *.
    destruct (Text.digits_of _ (n / 10) "") as [|c r] eqn:E.
    + simpl in *. destruct H as [H _]. eauto.
    + simpl in *. destruct H as [H _]. eauto.
Qed.

Lemma digitpart_of_nonneg (n : Z) :
  0 <= n -> exists k, Text.digitpart (Text.of_nonneg n) = Some (n, k, "").
Proof.
  intros Hn.
  destruct (of_nonneg_head n) as (c & r & E & (d & Hd & ->)).
  assert (D : Text.digitpart (Text.of_nonneg n)
              = Text.digits_from 0 0 (Text.of_nonneg n)).
  { rewrite E. simpl. now rewrite digit_of_digit_char. }
  rewrite D. unfold Text.of_nonneg.
  destruct (digits_from_digits_of _ n "" 0 0 (of_nonneg_fuel n Hn))
    as (k & _ & Ek).
  rewrite append_nil_r in Ek. rewrite Ek. now exists k.
Qed.

Lemma rev_append_every (P : ascii -> Prop) (s acc : string) :
  every P s -> every P acc -> every P (Text.rev_append s acc).
Proof.
  revert acc. induction s as [|c s IH]; intros acc Hs Ha; simpl; [exact Ha|].
  destruct Hs as [Hc Hs]. apply IH; [exact Hs | now split].
Qed.

Lemma rev_append_rev_append (s a b : string) :
  Text.rev_append (Text.rev_append s a) b = Text.rev_append a (s ++ b).
Proof.
  revert a b. induction s as [|c s IH]; intros a b; simpl; [reflexivity|].
  now rewrite IH.
Qed.

Lemma rev_rev (s : string) : Text.rev (Text.rev s) = s.
Proof.
  unfold Text.rev. rewrite rev_append_rev_append. simpl. apply append_nil_r.
Qed.

Lemma lstrip_no_space (s : string) :
  every (fun c => Text.is_space c = false) s -> Text.lstrip s = s.
Proof. destruct s as [|c s]; simpl; [auto | intros [-> _]; reflexivity]. Qed.

Lemma strip_no_space (s : string) :
  every (fun c => Text.is_space c = false) s -> Text.strip s = s.
Proof.
  intros H. unfold Text.strip. rewrite (lstrip_no_space s H).
  rewrite lstrip_no_space; [apply rev_rev|].
  apply rev_append_every; [exact H | exact I].
Qed.

Lemma contains_none (c : ascii) (s : string) :
  every (fun x => Ascii.eqb c x = false) s -> Text.contains c s = false.
Proof.
  induction s as [|x s IH]; simpl; [reflexivity|].
  intros [-> H]. now apply IH.
Qed.

Lemma universal_newlines_no_cr (s : string) :
  every (fun x => Ascii.eqb x Csv.cr = false) s -> Csv.universal_newlines s = s.
Proof.
  induction s as [|x s IH]; simpl; [reflexivity|].
  intros [-> H]. now rewrite IH.
Qed.

Lemma sign_other (c : ascii) (r : string) :
  c <> "-"%char -> c <> "+"%char -> Text.sign (String c r) = (false, String c r).
Proof.
  intros Hm Hp.
  destruct c as [[] [] [] [] [] [] [] []]; try reflexivity; congruence.
Qed.

Lemma of_Z_every (P : ascii -> Prop) (z : Z) :
  (forall c, is_decimal_char c -> P c) -> P "-"%char -> every P (Text.of_Z z).
Proof.
  intros Hd Hm. unfold Text.of_Z. destruct (z <? 0).
  - split; [exact Hm|]. eapply every_impl; [exact Hd | apply of_nonneg_every].
  - eapply every_impl; [exact Hd | apply of_nonneg_every].
Qed.

(** Reading back a printed integer. *)
Lemma py_int_of_Z (z : Z) : Text.py_int (Text.of_Z z) = Ok z.
Proof.
  unfold Text.py_int. rewrite strip_no_space.
  2:{ apply of_Z_every; [|reflexivity]. intros c H. now apply decimal_char_facts. }
  unfold Text.of_Z. destruct (Z.ltb_spec z 0) as [Hz|Hz].
  - cbn [Text.sign].
    destruct (digitpart_of_nonneg (- z)) as [k ->]; [lia|].
    f_equal. lia.
  - destruct (of_nonneg_head z) as (c & r & E & Hc).
    destruct (decimal_char_facts c Hc) as (_ & _ & _ & Hm & Hp).
    rewrite E, (sign_other c r Hm Hp), <- E.
    destruct (digitpart_of_nonneg z Hz) as [k ->]. reflexivity.
Qed.

Lemma of_Z_not_empty (z : Z) : Text.of_Z z <> "".
Proof.
  unfold Text.of_Z. destruct (z <? 0); [discriminate|].
  destruct (of_nonneg_head z) as (c & r & -> & _). discriminate.
Qed.

Lemma decode_of_Z (z : Z) : decode (Text.of_Z z) = VInt z.
Proof.
  unfold decode. rewrite contains_none, py_int_of_Z; [reflexivity|].
  apply of_Z_every; [|reflexivity]. intros c H. now apply decimal_char_facts.
Qed.

Lemma digit_head_is_no_word (c : ascii) (r : string) :
  is_decimal_char c ->
  String.eqb (Text.map_string Text.lower (String c r)) "inf"
  || String.eqb (Text.map_string Text.lower (String c r)) "infinity" = false
  /\ String.eqb (Text.map_string Text.lower (String c r)) "nan" = false
  /\ Text.number (String c r)
     = match Text.digitpart (String c r) with
       | Some (iv, _, String "." t) =>
           if Text.starts_with_digit t then
             match Text.digits_from iv 0 t with
             | Some (v, fn, rest) => Some (v, fn, rest)
             | None => None
             end
           else Some (iv, 0, t)
       | Some (iv, _, rest) => Some (iv, 0, rest)
       | None => None
       end.
Proof.
  intros (d & Hd & ->). apply (digit_cases d); auto; repeat split; reflexivity.
Qed.

Lemma py_float_of_nonneg (neg : bool) (n : Z) :
  0 <= n ->
  match Text.number (Text.of_nonneg n) with
  | Some (m, fn, rest) =>
      match Text.exponent rest with
      | Some (e, EmptyString) => Ok (F64.of_decimal neg m (e - fn))
      | _ => Raise ValueError
      end
  | None => Raise ValueError
  end = Ok (F64.of_decimal neg n 0).
Proof.
  intros Hn. destruct (of_nonneg_head n) as (c & r & E & Hc).
  destruct (digit_head_is_no_word c r Hc) as (_ & _ & Hnum).
  destruct (digitpart_of_nonneg n Hn) as [k Hk].
  rewrite E in *. rewrite Hnum, Hk. reflexivity.
Qed.

(** [float()] accepts a printed integer. *)
Lemma py_float_of_Z (z : Z) :
  Text.py_float (Text.of_Z z) = Ok (F64.of_decimal (z <? 0) (Z.abs z) 0).
Proof.
  unfold Text.py_float. rewrite strip_no_space.
  2:{ apply of_Z_every; [|reflexivity]. intros c H. now apply decimal_char_facts. }
  unfold Text.of_Z. destruct (Z.ltb_spec z 0) as [Hz|Hz].
  - cbn [Text.sign].
    destruct (of_nonneg_head (- z)) as (c & r & E & Hc).
    destruct (digit_head_is_no_word c r Hc) as (W1 & W2 & _).
    rewrite E, W1, W2, <- E.
    rewrite py_float_of_nonneg by lia. do 2 f_equal. lia.
  - destruct (of_nonneg_head z) as (c & r & E & Hc).
    destruct (decimal_char_facts c Hc) as (_ & _ & _ & Hm & Hp).
    destruct (digit_head_is_no_word c r Hc) as (W1 & W2 & _).
    rewrite E, (sign_other c r Hm Hp), W1, W2, <- E.
    rewrite py_float_of_nonneg by lia. do 2 f_equal. lia.
Qed.

(** ** The loop over the columns *)

Lemma update_field_decode (emp : employee) (k s : string) :
  HRSystem.is_common k = false -> s <> "" ->
  HRSystem.update_field emp (k, Some s)
  = with_data emp (setattr k (decode s) (data emp)).
Proof.
  intros Hk Hs. unfold HRSystem.update_field, decode. rewrite Hk.
  apply String.eqb_neq in Hs. rewrite Hs.
  destruct (Text.contains "." s).
  - destruct (Text.py_float s); reflexivity.
  - destruct (Text.py_int s); reflexivity.
Qed.

Lemma update_field_other (emp : employee) (k col : string)
    (v : option string) :
  col <> k ->
  getattr col (data (HRSystem.update_field emp (k, v))) = getattr col (data emp).
Proof.
  intros Hne. unfold HRSystem.update_field.
  destruct (HRSystem.is_common k); [reflexivity|].
  destruct v as [s|]; [|reflexivity].
  destruct (String.eqb s ""); [reflexivity|].
  match goal with
  | |- context [match ?n with Ok _ => _ | Raise _ => _ end] => destruct n
  end; simpl; now apply getattr_setattr_ne.
Qed.

Lemma fold_update_field_absent (r : HRSystem.row) (emp : employee)
    (col : string) :
  ~ In col (Dict.keys r) ->
  getattr col (data (fold_left HRSystem.update_field r emp))
  = getattr col (data emp).
Proof.
  revert emp. induction r as [|[k v] r IH]; intros emp H; simpl; [reflexivity|].
  rewrite IH by (intros Hin; apply H; now right).
  apply update_field_other. intros ->. apply H. now left.
Qed.

(** After the loop, a column that is not one of the four common ones holds
    the decoded cell if the cell is not empty, and what it held before the
    loop if the cell is empty or missing. *)
Lemma fold_update_field_at (r : HRSystem.row) (emp : employee) (col : string) :
  NoDup (Dict.keys r) ->
  HRSystem.is_common col = false ->
  getattr col (data (fold_left HRSystem.update_field r emp))
  = match Dict.get String.eqb col r with
    | Some (Some s) =>
        if String.eqb s "" then getattr col (data emp) else Some (decode s)
    | _ => getattr col (data emp)
    end.
Proof.
  intros Hn Hc. revert emp.
  induction r as [|[k v] r IH]; intros emp; cbn [fold_left Dict.get];
    [reflexivity|].
  inversion Hn as [|? ? Hk Hr]; subst.
  destruct (String.eqb col k) eqn:E.
  - apply String.eqb_eq in E. subst k.
    rewrite fold_update_field_absent by exact Hk.
    destruct v as [s|];
      [|unfold HRSystem.update_field; now rewrite Hc].
    destruct (String.eqb s "") eqn:Es.
    + apply String.eqb_eq in Es. subst. unfold HRSystem.update_field.
      now rewrite Hc.
    + apply String.eqb_neq in Es. rewrite update_field_decode by assumption.
      cbn [data with_data]. apply getattr_setattr_eq.
  - rewrite (IH Hr). apply String.eqb_neq in E.
    rewrite (update_field_other emp k col v E). reflexivity.
Qed.

Lemma read_row_nodup (fieldnames cells : list string)
    (d : list (string * option string)) :
  NoDup (Dict.keys d) -> NoDup (Dict.keys (Csv.read_row fieldnames cells d)).
Proof.
  revert cells d.
  induction fieldnames as [|k ks IH]; intros cells d H; simpl; [exact H|].
  destruct cells as [|c cs]; apply IH;
    apply (dict_nodup_set String.eqb String.eqb_eq); exact H.
Qed.

(** X14.  For a record that loads, the loop over the columns decides every
    column but the four common ones, whatever the constructor and the typed
    parse had put there: a cell that is not empty is stored as [int(cell)]
    if it has no point and reads as an integer, as [float(cell)] if it has
    a point and reads as a float, and as the text of the cell otherwise; a
    column whose cell is empty or missing keeps the value the constructor
    gave, or stays absent. *)
Theorem loaded_columns_are_decoded (fieldnames cells : list string)
    (k : value) (e : employee) :
  let r := Csv.read_row fieldnames cells [] in
  HRSystem.load_row r = Ok (k, e) ->
  exists emp,
    HRSystem.instantiate r = Ok emp
    /\ forall column,
         HRSystem.is_common column = false ->
         getattr column (data e)
         = match Dict.get String.eqb column r with
           | Some (Some cell) =>
               if String.eqb cell "" then getattr column (data emp)
               else Some (decode cell)
           | _ => getattr column (data emp)
           end.
Proof.
  intros r H. unfold HRSystem.load_row in H.
  apply bind_ok in H as (emp & Hi & H). inversion H; subst.
  exists emp. split; [exact Hi|]. intros column Hc.
  apply fold_update_field_at; [|exact Hc].
  apply read_row_nodup. constructor.
Qed.

Lemma loaded_columns_are_decoded_witness :
  exists k e,
    HRSystem.load_row (intern_row "False") = Ok (k, e)
    /\ getattr "completed" (data e) = Some (VStr "False")
    /\ getattr "stipend" (data e) = Some (VInt 15000).
Proof.
  destruct (HRSystem.load_row (intern_row "False")) as [[k e]|x] eqn:E;
    [|vm_compute in E; discriminate].
  exists k, e. split; [reflexivity|].
  destruct (loaded_columns_are_decoded intern_header
              ["False"; "IN900"; "2024-07-01"; "Charu Rai"; "Intern"; "15000"]
              k e E) as (emp & _ & H).
  split.
  - rewrite (H "completed" eq_refl). reflexivity.
  - rewrite (H "stipend" eq_refl). reflexivity.
Defined.

(** X15.  An integer survives the file: the cell [save_to_file] writes for
    an integer is not empty, and a record that loads with that cell in a
    column other than the four common ones holds the same integer there. *)
Theorem integer_cell_loads_as_the_integer (fieldnames cells : list string)
    (k : value) (e : employee) (column : string) (z : Z) :
  let r := Csv.read_row fieldnames cells [] in
  HRSystem.load_row r = Ok (k, e) ->
  HRSystem.is_common column = false ->
  Dict.get String.eqb column r = Some (Some (Csv.cell (VInt z))) ->
  Csv.cell (VInt z) <> ""
  /\ Text.py_int (Csv.cell (VInt z)) = Ok z
  /\ getattr column (data e) = Some (VInt z).
Proof.
  intros r H Hc Hg. simpl in *.
  split; [apply of_Z_not_empty|]. split; [apply py_int_of_Z|].
  unfold HRSystem.load_row in H.
  apply bind_ok in H as (emp & Hi & H). inversion H; subst.
  rewrite fold_update_field_at; [|apply read_row_nodup; constructor | exact Hc].
  fold r. rewrite Hg.
  pose proof (of_Z_not_empty z) as Hne. apply String.eqb_neq in Hne.
  rewrite Hne. now rewrite decode_of_Z.
Qed.

Lemma integer_cell_loads_as_the_integer_witness :
  exists k e,
    HRSystem.load_row full_time_row = Ok (k, e)
    /\ getattr "monthly_hours" (data e) = Some (VInt 90).
Proof.
  destruct (HRSystem.load_row full_time_row) as [[k e]|x] eqn:E;
    [|vm_compute in E; discriminate].
  exists k, e. split; [reflexivity|].
  exact (proj2 (proj2 (integer_cell_loads_as_the_integer
                         ["emp_id"; "name"; "role"; "monthly_salary";
                          "monthly_hours"]
                         ["F1"; "Al"; "Full-Time"; "10"; "90"]
                         k e "monthly_hours" 90 E eq_refl eq_refl))).
Defined.

Lemma instantiate_intern_completed (r : HRSystem.row) (emp : employee) :
  HRSystem.instantiate r = Ok emp ->
  Dict.get String.eqb "role" r = Some (Some "Intern") ->
  getattr "completed" (data emp)
  = Some (VBool (let c := HRSystem.row_get "completed" r in
                 HRSystem.cell_is c "True" || HRSystem.cell_is c "true"
                 || HRSystem.cell_is c "1")).
Proof.
  intros Hi Hrole. unfold HRSystem.instantiate in Hi. rewrite Hrole in Hi.
  cbn [HRSystem.cell_is] in Hi. simpl String.eqb in Hi. cbv iota in Hi.
  destruct (HRSystem.float_or_zero "stipend" r) as [stipend|x];
    [|discriminate].
  cbn [bind] in Hi. cbv zeta.
  destruct (_ || _); inversion Hi; reflexivity.
Qed.

(** X16.  Which interns load as completed.  For a row of role "Intern"
    that loads, the [completed] field of the object is true in a condition
    exactly when the cell is: text that is not a number, such as "True" but
    also "False" or "no", and any number but zero, count as completed; a
    zero ("0", "0.0"), an empty cell and a missing one do not. *)
Theorem loaded_intern_is_completed (fieldnames cells : list string)
    (k : value) (e : employee) :
  let r := Csv.read_row fieldnames cells [] in
  HRSystem.load_row r = Ok (k, e) ->
  Dict.get String.eqb "role" r = Some (Some "Intern") ->
  Py.truthy (Intern.completed e)
  = match HRSystem.row_get "completed" r with
    | Some cell => Py.truthy (decode cell)
    | None => false
    end
  /\ forall cell,
       HRSystem.row_get "completed" r = Some cell -> cell <> "" ->
       Text.contains "." cell = false ->
       Text.py_int cell = Raise ValueError ->
       Py.truthy (Intern.completed e) = true.
Proof.
  intros r H Hrole. unfold HRSystem.load_row in H.
  apply bind_ok in H as (emp & Hi & H). inversion H; subst. clear H.
  pose proof (instantiate_intern_completed _ _ Hi Hrole) as Hc.
  assert (Hf : getattr "completed"
                 (data (fold_left HRSystem.update_field r emp))
               = match Dict.get String.eqb "completed" r with
                 | Some (Some s) =>
                     if String.eqb s "" then getattr "completed" (data emp)
                     else Some (decode s)
                 | _ => getattr "completed" (data emp)
                 end).
  { apply fold_update_field_at; [|reflexivity].
    apply read_row_nodup. constructor. }
  unfold Intern.completed. rewrite Hf, Hc. clear Hf Hc.
  unfold HRSystem.row_get.
  destruct (Dict.get String.eqb "completed" r) as [[cell|]|].
  - destruct (String.eqb cell "") eqn:Es.
    + apply String.eqb_eq in Es. subst cell. split; [reflexivity|].
      intros cell E. inversion E; subst. congruence.
    + split; [reflexivity|]. intros c E Hne Hp Hint. inversion E; subst c.
      unfold decode. rewrite Hp, Hint. simpl. now rewrite Es.
  - split; [reflexivity | discriminate].
  - split; [reflexivity | discriminate].
Qed.

Lemma loaded_intern_is_completed_witness :
  exists k e,
    HRSystem.load_row (intern_row "no") = Ok (k, e)
    /\ Py.truthy (Intern.completed e) = true.
Proof.
  destruct (HRSystem.load_row (intern_row "no")) as [[k e]|x] eqn:E;
    [|vm_compute in E; discriminate].
  exists k, e. split; [reflexivity|].
  exact (proj2 (loaded_intern_is_completed intern_header
                  ["no"; "IN900"; "2024-07-01"; "Charu Rai"; "Intern"; "15000"]
                  k e E eq_refl)
           "no" eq_refl ltac:(discriminate) eq_refl eq_refl).
Defined.

(** ** Saving and loading again *)

Lemma getattr_in_keys (k : string) (v : value) (d : attrs) :
  getattr k d = Some v -> In k (Dict.keys d).
Proof.
  unfold getattr. induction d as [|[k' v'] d IH]; simpl; [discriminate|].
  destruct (String.eqb k k') eqn:E; [|right; auto].
  apply String.eqb_eq in E. now left.
Qed.

Lemma read_row_untouched (fieldnames cells : list string)
    (d : list (string * option string)) (column : string) :
  ~ In column fieldnames ->
  Dict.get String.eqb column (Csv.read_row fieldnames cells d)
  = Dict.get String.eqb column d.
Proof.
  revert cells d. induction fieldnames as [|k ks IH]; intros cells d H; simpl;
    [reflexivity|].
  assert (Hne : column <> k) by (intros ->; apply H; now left).
  assert (Hks : ~ In column ks) by (intros Hin; apply H; now right).
  destruct cells as [|c cs]; rewrite (IH _ _ Hks);
    now apply (dict_get_set_other String.eqb String.eqb_eq).
Qed.

Lemma read_row_map (g : string -> string) (fieldnames : list string)
    (d : list (string * option string)) (column : string) :
  In column fieldnames ->
  Dict.get String.eqb column (Csv.read_row fieldnames (map g fieldnames) d)
  = Some (Some (g column)).
Proof.
  revert d. induction fieldnames as [|k ks IH]; intros d; simpl; [tauto|].
  intros H. destruct (in_dec string_dec column ks) as [Hin|Hout];
    [now apply IH|].
  destruct H as [->|H]; [|contradiction].
  rewrite (read_row_untouched _ _ _ _ Hout).
  apply (dict_get_set_same String.eqb String.eqb_eq).
Qed.

Lemma map_universal_newlines (l : list string) :
  (forall s, In s l -> no_cr s) -> map Csv.universal_newlines l = l.
Proof.
  intros H. rewrite <- (map_id l) at 2. apply map_ext_in.
  intros s Hs. apply universal_newlines_no_cr. now apply H.
Qed.

Lemma set_new (k : value) (e : employee) (employees : registry) :
  ~ In k (Dict.keys employees) ->
  Dict.set Py.eqb k e employees = (employees ++ [(k, e)])%list.
Proof.
  induction employees as [|[k' e'] r IH]; simpl; [reflexivity|].
  intros H. rewrite (eqb_neq' Py.eqb Py_eqb_iff); [|intros ->; apply H; now left].
  rewrite IH; [reflexivity|]. intros Hin. apply H. now right.
Qed.

Lemma load_row_common_cells (r : HRSystem.row) (k : value) (e : employee) :
  HRSystem.load_row r = Ok (k, e) ->
  k = HRSystem.cell_value (HRSystem.row_get "emp_id" r)
  /\ getattr "role" (data e)
     = Some (HRSystem.cell_value
               match Dict.get String.eqb "role" r with
               | Some c => c
               | None => Some ""
               end).
Proof.
  intros H. unfold HRSystem.load_row in H.
  apply bind_ok in H as (emp & Hi & H). inversion H; subst.
  destruct (instantiate_common _ _ Hi) as (_ & _ & Hr).
  rewrite fold_update_field_common by reflexivity. now split.
Qed.

Section RoundTrip.

Variable header : list string.

Lemma cells_of_map (e : employee) : cells_of header e = map (delivered e) header.
Proof. unfold cells_of, Csv.row_cells. now rewrite map_map. Qed.

Lemma row_survives (k : value) (e : employee) (s : string) (k' : value)
    (e' : employee) :
  k = VStr s -> no_cr s ->
  getattr "emp_id" (data e) = Some k ->
  (forall column, In column (Dict.keys (data e)) -> In column header) ->
  HRSystem.load_row (Csv.read_row header (cells_of header e) []) = Ok (k', e') ->
  survives (k, e) (k', e').
Proof.
  intros -> Hs Hid Hin Hl. rewrite cells_of_map in Hl.
  pose proof (load_row_id _ _ _ Hl) as Hid'.
  destruct (load_row_common_cells _ _ _ Hl) as [Hk Hr]. subst k'.
  assert (Hg : forall column v,
             getattr column (data e) = Some v ->
             Dict.get String.eqb column
               (Csv.read_row header (map (delivered e) header) [])
             = Some (Some (Csv.universal_newlines (Csv.cell v)))).
  { intros column v Hv. rewrite read_row_map.
    - unfold delivered. now rewrite Hv.
    - apply Hin. eapply getattr_in_keys; eauto. }
  assert (Ek : HRSystem.cell_value
                 (HRSystem.row_get "emp_id"
                    (Csv.read_row header (map (delivered e) header) []))
               = VStr s).
  { unfold HRSystem.row_get. rewrite (Hg _ _ Hid). simpl.
    now rewrite universal_newlines_no_cr. }
  rewrite Ek in *. clear Ek. unfold survives. simpl.
  split; [reflexivity|]. split; [exact Hid'|]. split.
  - intros role Hrole Hcr. rewrite Hr, (Hg _ _ Hrole). simpl.
    now rewrite universal_newlines_no_cr.
  - intros column z Hc Hz.
    unfold HRSystem.load_row in Hl.
    apply bind_ok in Hl as (emp & Hi & Hl). inversion Hl; subst.
    rewrite fold_update_field_at;
      [|apply read_row_nodup; constructor | exact Hc].
    rewrite (Hg _ _ Hz). simpl.
    rewrite universal_newlines_no_cr
      by (apply of_Z_every; [|reflexivity]; intros c H;
          now apply decimal_char_facts).
    pose proof (of_Z_not_empty z) as Hne. apply String.eqb_neq in Hne.
    rewrite Hne. now rewrite decode_of_Z.
Qed.

Lemma rows_survive (employees acc loaded : registry) :
  header <> [] ->
  (forall k e, In (k, e) employees ->
     exists s, k = VStr s /\ no_cr s
               /\ getattr "emp_id" (data e) = Some k
               /\ forall column, In column (Dict.keys (data e)) ->
                                 In column header) ->
  NoDup (Dict.keys acc ++ Dict.keys employees) ->
  HRSystem.load_rows header (map (fun kv => cells_of header (snd kv)) employees) acc
  = (loaded, Ok tt) ->
  exists news,
    loaded = (acc ++ news)%list /\ Forall2 survives employees news.
Proof.
  intros Hh. revert acc.
  induction employees as [|[k e] rest IH]; intros acc Hgood Hn Hl.
  - simpl in Hl. inversion Hl; subst. exists []. split; [|constructor].
    now rewrite app_nil_r.
  - cbn [map snd] in Hl.
    destruct (Hgood k e (or_introl eq_refl)) as (s & Hk & Hs & Hid & Hin).
    destruct (cells_of header e) as [|c cs] eqn:Ec.
    { exfalso. apply Hh. rewrite cells_of_map in Ec.
      destruct header; [reflexivity | discriminate]. }
    cbn [HRSystem.load_rows] in Hl.
    destruct (HRSystem.load_row (Csv.read_row header (c :: cs) []))
      as [[k' e']|x] eqn:El; [|discriminate].
    rewrite <- Ec in El.
    pose proof (row_survives k e s k' e' Hk Hs Hid Hin El) as Hsv.
    assert (Ek : k' = k) by apply Hsv. subst k'.
    assert (Hnew : ~ In k (Dict.keys acc)).
    { intros H. apply NoDup_remove_2 in Hn. apply Hn.
      apply in_or_app. now left. }
    rewrite (set_new _ _ _ Hnew) in Hl.
    destruct (IH (acc ++ [(k, e')])%list) as (news & -> & Hf).
    + intros k0 e0 H0. apply Hgood. now right.
    + unfold Dict.keys in *. rewrite map_app. simpl in *.
      rewrite <- app_assoc. exact Hn.
    + exact Hl.
    + exists ((k, e') :: news). split; [now rewrite <- app_assoc|].
      now constructor.
Qed.

Lemma delivered_cell (e : employee) (column s : string) :
  HRSystem.row_get column (Csv.read_row header (map (delivered e) header) [])
  = Some s ->
  s = delivered e column.
Proof.
  unfold HRSystem.row_get.
  destruct (in_dec string_dec column header) as [Hin|Hout].
  - rewrite read_row_map by exact Hin. congruence.
  - rewrite read_row_untouched by exact Hout. discriminate.
Qed.

Lemma row_loads (e : employee) :
  (forall column v,
     In column ["monthly_salary"; "hourly_rate"; "monthly_hours"; "stipend"] ->
     getattr column (data e) = Some v -> exists z, v = VInt z) ->
  exists k e',
    HRSystem.load_row (Csv.read_row header (cells_of header e) []) = Ok (k, e').
Proof.
  intros Ht. rewrite cells_of_map.
  destruct (HRSystem.load_row _) as [[k e']|x] eqn:El; [eauto|]. exfalso.
  destruct (load_row_failure _ _ El) as (_ & column & s & Hg & Hne & Hf & Hc).
  apply delivered_cell in Hg. subst s. unfold delivered in *.
  assert (Hin : In column
                  ["monthly_salary"; "hourly_rate"; "monthly_hours"; "stipend"])
    by (simpl; intuition).
  destruct (getattr column (data e)) as [v|] eqn:Ev; [|now apply Hne].
  destruct (Ht column v Hin Ev) as [z ->]. simpl in Hf.
  rewrite universal_newlines_no_cr in Hf
    by (apply of_Z_every; [|reflexivity]; intros c H;
        now apply decimal_char_facts).
  rewrite py_float_of_Z in Hf. discriminate.
Qed.

Lemma rows_load (employees acc : registry) :
  (forall k e column v, In (k, e) employees ->
     In column ["monthly_salary"; "hourly_rate"; "monthly_hours"; "stipend"] ->
     getattr column (data e) = Some v -> exists z, v = VInt z) ->
  exists loaded,
    HRSystem.load_rows header (map (fun kv => cells_of header (snd kv)) employees) acc
    = (loaded, Ok tt).
Proof.
  revert acc. induction employees as [|[k e] rest IH]; intros acc Ht.
  - now exists acc.
  - cbn [map snd].
    destruct (row_loads e) as (k' & e' & El);
      [intros column v; apply (Ht k e); now left|].
    assert (Hrest : forall acc', exists loaded,
               HRSystem.load_rows header
                 (map (fun kv => cells_of header (snd kv)) rest) acc'
               = (loaded, Ok tt)).
    { intros acc'. apply IH. intros k0 e0 column v H0. apply (Ht k0 e0).
      now right. }
    destruct (cells_of header e) as [|c cs]; cbn [HRSystem.load_rows];
      [apply Hrest|].
    rewrite El. apply Hrest.
Qed.

End RoundTrip.

(** X17.  Saving and loading again keeps the ids and the integers.  For a
    registry with distinct string ids, each the [emp_id] of its object,
    and with no carriage return in an id or a field name: the file
    [save_to_file] writes, if reading it raises no error, loads as a
    registry with the same ids in the same order, where every object has
    its id as [emp_id], the role it was saved with (when that is text
    without a carriage return), and, in every field but the four common
    ones, every integer it was saved with. *)
Theorem save_then_load_keeps_ids_and_integers (employees : registry)
    (fs : disk) :
  writable fs = true ->
  employees <> [] ->
  NoDup (Dict.keys employees) ->
  (forall k e, In (k, e) employees ->
     exists s, k = VStr s /\ no_cr s /\ getattr "emp_id" (data e) = Some k) ->
  (forall k e column, In (k, e) employees ->
     In column (Dict.keys (data e)) -> no_cr column) ->
  exists f,
    HRSystem.save_to_file employees fs
    = ({| content := Some f; writable := true |}, Ok tt)
    /\ forall loaded,
         HRSystem.read_file f [] = (loaded, Ok tt) ->
         HRSystem.init {| content := Some f; writable := true |}
         = (loaded, Ok tt)
         /\ Forall2 survives employees loaded.
Proof.
  intros Hw Hne Hn Hids Hcr.
  destruct employees as [|kv rest]; [congruence|]. clear Hne.
  unfold HRSystem.save_to_file. rewrite Hw.
  set (employees := kv :: rest) in *.
  set (dicts := map Employee.to_dict (Dict.values employees)).
  set (header := HRSystem.sorted_keys dicts).
  eexists. split; [reflexivity|]. intros loaded Hread.
  split.
  { unfold HRSystem.init, HRSystem._load_from_file. cbn [content].
    now rewrite Hread. }
  destruct (sorted_keys_from dicts [] I) as [_ M].
  fold (HRSystem.sorted_keys dicts) in M. fold header in M.
  assert (Hmem : forall k e column,
             In (k, e) employees -> In column (Dict.keys (data e)) ->
             In column header).
  { intros k e column Hin Hc. apply M. left. exists (data e).
    split; [|exact Hc]. subst dicts. apply in_map_iff.
    exists e. split; [reflexivity|]. apply in_values. eauto. }
  assert (Hhcr : forall column, In column header -> no_cr column).
  { intros column Hc. apply M in Hc as [(d & Hd & Hc)|[]].
    subst dicts. apply in_map_iff in Hd as (e & <- & He).
    apply in_values in He as [k Hk]. eapply Hcr; eauto. }
  assert (Hh : header <> []).
  { destruct kv as [k e].
    destruct (Hids k e (or_introl eq_refl)) as (s & _ & _ & Hid).
    pose proof (Hmem k e "emp_id" (or_introl eq_refl)
                  (getattr_in_keys _ _ _ Hid)) as Hin.
    intros E. rewrite E in Hin. exact Hin. }
  unfold HRSystem.read_file in Hread. cbn [records map] in Hread.
  rewrite (map_universal_newlines header Hhcr) in Hread.
  replace (map (map Csv.universal_newlines)
             (map (Csv.row_cells header) dicts))
    with (map (fun kv : value * employee =>
                 map Csv.universal_newlines
                   (Csv.row_cells header (data (snd kv)))) employees)
    in Hread
    by (subst dicts; unfold Dict.values, Employee.to_dict;
        now rewrite !map_map).
  destruct (HRSystem.load_rows header _ []) as [loaded' [[]|x]] eqn:El;
    [|discriminate].
  cbn in Hread. inversion Hread; subst loaded'.
  destruct (rows_survive header employees [] loaded Hh) as (news & E & Hf).
  - intros k e Hin. destruct (Hids k e Hin) as (s & Hk & Hs & Hid).
    exists s. repeat split; auto. intros column Hc. eapply Hmem; eauto.
  - exact Hn.
  - exact El.
  - simpl in E. now subst.
Qed.

Lemma save_then_load_keeps_ids_and_integers_witness :
  exists loaded,
    HRSystem.init (fst (HRSystem.save_to_file demo_registry empty_disk))
    = (loaded, Ok tt)
    /\ Forall2 survives demo_registry loaded.
Proof.
  destruct (save_then_load_keeps_ids_and_integers demo_registry empty_disk)
    as (f & Hs & Hl).
  - reflexivity.
  - discriminate.
  - repeat (constructor; [simpl; intuition discriminate|]). constructor.
  - intros k e [H|[H|[H|[]]]]; inversion H; subst; eexists;
      (split; [reflexivity|]); unfold no_cr; simpl; intuition reflexivity.
  - intros k e column [H|[H|[H|[]]]]; inversion H; subst; simpl;
      intros Hc; decompose [or] Hc; subst; unfold no_cr; simpl; intuition reflexivity.
  - rewrite Hs. simpl.
    destruct (HRSystem.read_file f []) as [loaded [[]|x]] eqn:E.
    + exists loaded. exact (Hl loaded eq_refl).
    + exfalso. vm_compute in Hs. inversion Hs; subst f.
      vm_compute in E. discriminate.
Defined.

(** X18.  A registry whose salary fields are integers loads back.  When the
    registry is not empty, the path can be written, no field name holds a
    carriage return and every [monthly_salary], [hourly_rate],
    [monthly_hours] and [stipend] present is an integer, the file
    [save_to_file] writes is read without an error: a new [HRSystem] on it
    holds what the rows gave, not the empty registry of a failed load. *)
Theorem saved_integer_salaries_load_back (employees : registry) (fs : disk) :
  writable fs = true ->
  employees <> [] ->
  (forall k e column, In (k, e) employees ->
     In column (Dict.keys (data e)) -> no_cr column) ->
  (forall k e column v, In (k, e) employees ->
     In column ["monthly_salary"; "hourly_rate"; "monthly_hours"; "stipend"] ->
     getattr column (data e) = Some v -> exists z, v = VInt z) ->
  exists f loaded,
    HRSystem.save_to_file employees fs
    = ({| content := Some f; writable := true |}, Ok tt)
    /\ HRSystem.read_file f [] = (loaded, Ok tt)
    /\ HRSystem.init {| content := Some f; writable := true |}
       = (loaded, Ok tt).
Proof.
  intros Hw Hne Hcr Ht.
  destruct employees as [|kv rest]; [congruence|]. clear Hne.
  unfold HRSystem.save_to_file. rewrite Hw.
  set (employees := kv :: rest) in *.
  set (dicts := map Employee.to_dict (Dict.values employees)).
  set (header := HRSystem.sorted_keys dicts).
  destruct (sorted_keys_from dicts [] I) as [_ M].
  fold (HRSystem.sorted_keys dicts) in M. fold header in M.
  assert (Hhcr : forall column, In column header -> no_cr column).
  { intros column Hc. apply M in Hc as [(d & Hd & Hc)|[]].
    subst dicts. apply in_map_iff in Hd as (e & <- & He).
    apply in_values in He as [k Hk]. eapply Hcr; eauto. }
  destruct (rows_load header employees [] Ht) as [loaded Hl].
  unfold cells_of in Hl.
  assert (Hread : HRSystem.read_file
                    {| records := header :: map (Csv.row_cells header) dicts;
                       failure := None |} []
                  = (loaded, Ok tt)).
  { unfold HRSystem.read_file. cbn [records map].
    rewrite (map_universal_newlines header Hhcr).
    replace (map (map Csv.universal_newlines)
               (map (Csv.row_cells header) dicts))
      with (map (fun kv : value * employee =>
                   map Csv.universal_newlines
                     (Csv.row_cells header (data (snd kv)))) employees)
      by (subst dicts; unfold Dict.values, Employee.to_dict;
          now rewrite !map_map).
    rewrite Hl. reflexivity. }
  eexists. exists loaded. split; [reflexivity|]. split; [exact Hread|].
  unfold HRSystem.init, HRSystem._load_from_file. cbn [content].
  now rewrite Hread.
Qed.

Lemma saved_integer_salaries_load_back_witness :
  exists loaded,
    HRSystem.init (fst (HRSystem.save_to_file demo_registry empty_disk))
    = (loaded, Ok tt)
    /\ List.length loaded = 3%nat.
Proof.
  destruct (saved_integer_salaries_load_back demo_registry empty_disk)
    as (f & loaded & Hs & Hr & Hi).
  - reflexivity.
  - discriminate.
  - intros k e column [H|[H|[H|[]]]]; inversion H; subst; simpl;
      intros Hc; decompose [or] Hc; subst; unfold no_cr; simpl;
      intuition reflexivity.
  - intros k e column v [H|[H|[H|[]]]]; inversion H; subst;
      intros Hc; simpl in Hc; decompose [or] Hc; subst; try contradiction;
      intros Hv; vm_compute in Hv; inversion Hv; eauto.
  - exists loaded. rewrite Hs. split; [exact Hi|].
    vm_compute in Hs. inversion Hs; subst f.
    vm_compute in Hr. inversion Hr. reflexivity.
Defined.

(** ** Dates as text *)

Lemma repeat_zero_every (k : nat) : every is_decimal_char (Text.repeat "0" k).
Proof.
  induction k as [|k IH]; simpl; [exact I|].
  split; [|exact IH]. exists 0. split; [lia | reflexivity].
Qed.

Lemma every_app (P : ascii -> Prop) (a b : string) :
  every P a -> every P b -> every P (a ++ b).
Proof. induction a as [|c a IH]; simpl; [auto | intros [? ?] ?; auto]. Qed.

Lemma zero_pad_every (w : nat) (n : Z) :
  every is_decimal_char (Text.zero_pad w n).
Proof.
  unfold Text.zero_pad. apply every_app;
    [apply repeat_zero_every | apply of_nonneg_every].
Qed.

Lemma digits_from_zeros (k : nat) (c : Z) (t : string) :
  Text.digits_from 0 c (Text.repeat "0" k ++ t)
  = Text.digits_from 0 (c + Z.of_nat k) t.
Proof.
  revert c. induction k as [|k IH]; intros c.
  - simpl. now rewrite Z.add_0_r.
  - cbn [Text.repeat String.append].
    change "0"%char with (Text.digit_char 0).
    rewrite digits_from_digit by lia. rewrite IH. f_equal. lia.
Qed.

Lemma py_int_zero_pad (w : nat) (n : Z) :
  0 <= n -> Text.py_int (Text.zero_pad w n) = Ok n.
Proof.
  intros Hn. unfold Text.py_int.
  pose proof (zero_pad_every w n) as Hall.
  rewrite strip_no_space
    by (eapply every_impl; [|exact Hall]; intros c H;
        now apply decimal_char_facts).
  assert (Hhead : exists c r, Text.zero_pad w n = String c r
                              /\ is_decimal_char c).
  { destruct (Text.zero_pad w n) as [|c r] eqn:E.
    - exfalso. unfold Text.zero_pad in E.
      destruct (of_nonneg_head n) as (c & r & En & _). rewrite En in E.
      destruct (Text.repeat "0" _); discriminate.
    - destruct Hall as [Hc _]. eauto. }
  destruct Hhead as (c & r & E & Hc).
  destruct (decimal_char_facts c Hc) as (_ & _ & _ & Hm & Hp).
  rewrite E, (sign_other c r Hm Hp), <- E.
  assert (D : Text.digitpart (Text.zero_pad w n)
              = Text.digits_from 0 0 (Text.zero_pad w n)).
  { rewrite E. destruct Hc as (d & Hd & ->). simpl.
    now rewrite digit_of_digit_char. }
  rewrite D. unfold Text.zero_pad. rewrite digits_from_zeros.
  unfold Text.of_nonneg.
  destruct (digits_from_digits_of _ n "" 0 (0 + Z.of_nat (w - String.length
              (Text.digits_of (S (Z.to_nat (Z.log2 n))) n "")))
              (of_nonneg_fuel n Hn)) as (k & _ & Ek).
  rewrite append_nil_r in Ek. rewrite Ek. simpl. reflexivity.
Qed.

Lemma split_at_skip (sep : ascii) (a s cur : string) :
  every (fun c => Ascii.eqb c sep = false) a ->
  Text.split_at sep (a ++ s) cur = Text.split_at sep s (Text.rev_append a cur).
Proof.
  revert cur. induction a as [|c a IH]; intros cur; simpl; [reflexivity|].
  intros [-> H]. now apply IH.
Qed.

Lemma split_three (sep : ascii) (a b c : string) :
  every (fun x => Ascii.eqb x sep = false) a ->
  every (fun x => Ascii.eqb x sep = false) b ->
  every (fun x => Ascii.eqb x sep = false) c ->
  Text.split sep (a ++ String sep (b ++ String sep c)) = [a; b; c].
Proof.
  intros Ha Hb Hc. unfold Text.split.
  rewrite (split_at_skip sep a _ "" Ha). cbn [Text.split_at].
  rewrite Ascii.eqb_refl.
  rewrite (split_at_skip sep b _ "" Hb). cbn [Text.split_at].
  rewrite Ascii.eqb_refl.
  rewrite <- (append_nil_r c) at 1.
  rewrite (split_at_skip sep c "" "" Hc). cbn [Text.split_at].
  change (Text.rev_append ?x "") with (Text.rev x).
  now rewrite !rev_rev.
Qed.

Lemma decimal_no_dash (s : string) :
  every is_decimal_char s -> every (fun x => Ascii.eqb x "-" = false) s.
Proof.
  apply every_impl. intros c H.
  destruct (decimal_char_facts c H) as (_ & _ & _ & Hm & _).
  now apply Ascii.eqb_neq.
Qed.

(** X19.  A join date given as a date object and the text [save_to_file]
    writes for it count the same years of service: the text reads back as
    the same calendar date. *)
Theorem join_date_survives_as_text (self saved : employee) (today : Date.t)
    (y m d : Z) :
  Date.valid (Date.mk y m d) = true ->
  getattr "join_date" (data self) = Some (VDate y m d) ->
  getattr "join_date" (data saved) = Some (VStr (Csv.cell (VDate y m d))) ->
  Employee.join_date (VStr (Csv.cell (VDate y m d))) = Ok (Date.mk y m d)
  /\ Employee.years_of_service saved today
     = Employee.years_of_service self today.
Proof.
  intros Hv Hs Hl.
  assert (Hj : Employee.join_date (VStr (Csv.cell (VDate y m d)))
               = Ok (Date.mk y m d)).
  { cbn [Csv.cell Py.str Employee.join_date].
    change (Text.zero_pad 4 y ++ "-" ++ Text.zero_pad 2 m ++ "-"
              ++ Text.zero_pad 2 d)
      with (Text.zero_pad 4 y
              ++ String "-" (Text.zero_pad 2 m ++ String "-" (Text.zero_pad 2 d))).
    rewrite split_three by (apply decimal_no_dash, zero_pad_every).
    pose proof Hv as Hb. unfold Date.valid in Hb. cbn [Date.year Date.month Date.day] in Hb.
    repeat (apply andb_prop in Hb as [Hb ?]).
    repeat match goal with
           | H : (_ <=? _) = true |- _ => apply Z.leb_le in H
           end.
    rewrite !py_int_zero_pad by lia. cbn [bind].
    unfold Date.make. rewrite Hv.
    assert (Hd31 : Date.days_in_month y m <= 31).
    { unfold Date.days_in_month.
      repeat match goal with
             | |- context [if ?c then _ else _] => destruct c
             end; lia. }
    replace (Date.c_int y && Date.c_int m && Date.c_int d) with true;
      [reflexivity|].
    unfold Date.c_int. symmetry.
    repeat (apply andb_true_intro; split);
      try (apply Z.leb_le; lia); apply Z.ltb_lt; lia. }
  split; [exact Hj|].
  unfold Employee.years_of_service, getitem. rewrite Hs, Hl. cbn [bind].
  rewrite Hj. reflexivity.
Qed.

Lemma join_date_survives_as_text_witness :
  Employee.years_of_service (leap_employee (VStr "2020-02-29"))
    (Date.mk 2025 2 28)
  = Employee.years_of_service (leap_employee (VDate 2020 2 29))
      (Date.mk 2025 2 28).
Proof.
  exact (proj2 (join_date_survives_as_text (leap_employee (VDate 2020 2 29))
                  (leap_employee (VStr "2020-02-29")) (Date.mk 2025 2 28)
                  2020 2 29 eq_refl eq_refl eq_refl)).
Defined.

(** ** Text in a salary field *)

Lemma extra_rate_is_float (years : Z) (v : value) :
  FullTime.extra_rate years = Ok v -> exists f, v = VFloat f.
Proof.
  unfold FullTime.extra_rate. intros H.
  apply bind_ok in H as (scaled & Hs & H).
  assert (Hf : exists f, scaled = VFloat f).
  { revert Hs. unfold Py.mul. cbn [Py.as_num].
    destruct (Py.to_float (Py.NInt (years / 3))); simpl;
      intros H'; inversion H'; eauto. }
  destruct Hf as [f ->]. unfold Py.min in H.
  apply bind_ok in H as (c & _ & H). inversion H. destruct c; eauto.
Qed.

Lemma mul_text_is_text (s : string) (v base : value) :
  Py.mul (VStr s) v = Ok base -> exists t, base = VStr t.
Proof.
  unfold Py.mul. cbn [Py.as_num].
  destruct (Py.as_num v) as [[n|f]|]; try discriminate.
  unfold Py.repeat_str.
  destruct (_ || _); [discriminate|].
  destruct (n <=? 0); [intros H; inversion H; eauto|].
  destruct (_ <? _); [discriminate|]. intros H; inversion H; eauto.
Qed.

(** X20.  A record whose salary field holds text, as the loader leaves it
    for a cell such as "1e+16", cannot be paid: a full-time record with a
    text [monthly_salary] and an intern with a text [stipend] return no
    value, with or without the bonus or the allowance; the intern's call
    raises [TypeError]. *)
Theorem text_salary_cannot_be_paid (self : employee) (s : string) :
  (getattr "monthly_salary" (data self) = Some (VStr s) ->
   forall months apply_bonus today v,
     FullTime.calculate_salary self months apply_bonus today <> Ok v)
  /\ (getattr "stipend" (data self) = Some (VStr s) ->
      forall apply_completion_allowance,
        Intern.calculate_salary self apply_completion_allowance
        = Raise TypeError).
Proof.
  split.
  - intros Hs months apply_bonus today v.
    unfold FullTime.calculate_salary, getitem. rewrite Hs. cbn [bind].
    destruct (Py.mul (VStr s) months) as [base|x] eqn:Hm; [|discriminate].
    destruct (mul_text_is_text _ _ _ Hm) as [t ->]. cbn [bind].
    destruct apply_bonus; [|discriminate].
    destruct (Employee.years_of_service self today); [|discriminate].
    cbn [bind].
    destruct (FullTime.extra_rate a) as [extra|x] eqn:He; [|discriminate].
    destruct (extra_rate_is_float _ _ He) as [f ->]. cbn [bind].
    destruct (getattr "bonus_percent" (data self)) as [bp|]; [|discriminate].
    cbn [bind].
    destruct (Py.add bp (VFloat f)) as [rate|x] eqn:Ha; [|discriminate].
    assert (Hr : exists g, rate = VFloat g).
    { revert Ha. unfold Py.add. cbn [Py.as_num].
      destruct (Py.as_num bp) as [[n|g]|]; cbn [Py.to_float bind].
      - destruct (F64.of_Z n); cbn [bind]; intros H; inversion H; eauto.
      - intros H; inversion H; eauto.
      - destruct bp; discriminate. }
    destruct Hr as [g ->]. discriminate.
  - intros Hs apply_completion_allowance.
    unfold Intern.calculate_salary, getitem. rewrite Hs. cbn [bind].
    destruct (apply_completion_allowance && _); reflexivity.
Qed.

Lemma text_salary_cannot_be_paid_witness :
  FullTime.calculate_salary text_salary_employee (VInt 1) true
    (Date.mk 2025 1 1) <> Ok (VFloat (F64.of_decimal false 1 16))
  /\ Intern.calculate_salary text_stipend_intern true = Raise TypeError.
Proof.
  split.
  - exact (proj1 (text_salary_cannot_be_paid text_salary_employee "1e+16")
             eq_refl (VInt 1) true (Date.mk 2025 1 1)
             (VFloat (F64.of_decimal false 1 16))).
  - exact (proj2 (text_salary_cannot_be_paid text_stipend_intern "1e+16")
             eq_refl true).
Defined.
